(** * Cloud top analysis: cloud_top.py

    A shallow embedding of [cloud_base_top] and [var_below_cloud_top]
    and of the numpy / xarray primitives they are written with.

    Data model.  A labelled array with dimension 'lev' plus column
    dimensions is a record holding the 'lev' coordinate values and one
    list of cell values per column, each list running along 'lev' in
    index order.  Every operation of the module is either elementwise or
    a reduction along 'lev', so the column dimensions are kept flattened.
    Cell values are IEEE-754 values ([spec_float]); comparisons are the
    IEEE ones, for which every comparison against NaN is false.
    Indices are numpy integers, modelled in [Z]. *)

From Stdlib Require Import ZArith List Bool Lia PArith.
From Stdlib Require Import PrimFloat FloatOps SpecFloat.
Import ListNotations.
Open Scope Z_scope.

(** ** IEEE-754 values and comparisons *)

Module Float.

Definition float : Type := spec_float.

Definition nan : float := S754_nan.

Definition is_nan (x : float) : bool :=
  match x with S754_nan => true | _ => false end.

(** [x < y], [x > y], [x >= y], [x == y] on floats. *)
Definition ltb (x y : float) : bool := SFltb x y.
Definition gtb (x y : float) : bool := SFltb y x.
Definition leb (x y : float) : bool := SFleb x y.
Definition geb (x y : float) : bool := SFleb y x.
Definition eqb (x y : float) : bool := SFeqb x y.

(** The binary64 values of the decimal literals used by the module and
    by the scenarios. *)
Definition f0 : float := Eval vm_compute in Prim2SF 0%float.
#[warnings="-inexact-float"]
Definition f1em5 : float := Eval vm_compute in Prim2SF 1.0e-5%float.
#[warnings="-inexact-float"]
Definition f2em5 : float := Eval vm_compute in Prim2SF 2e-5%float.
#[warnings="-inexact-float"]
Definition f3em5 : float := Eval vm_compute in Prim2SF 3e-5%float.
Definition f1 : float := Eval vm_compute in Prim2SF 1%float.
Definition f2 : float := Eval vm_compute in Prim2SF 2%float.
Definition f3 : float := Eval vm_compute in Prim2SF 3%float.
Definition f4 : float := Eval vm_compute in Prim2SF 4%float.
Definition f10 : float := Eval vm_compute in Prim2SF 10%float.
Definition f20 : float := Eval vm_compute in Prim2SF 20%float.
Definition f30 : float := Eval vm_compute in Prim2SF 30%float.
Definition f40 : float := Eval vm_compute in Prim2SF 40%float.
Definition f50 : float := Eval vm_compute in Prim2SF 50%float.

End Float.

(** ** Exceptions

    The three ways the numpy primitives used here raise [ValueError]. *)

Inductive exn : Type :=
| EmptySequence   (* argmax / argmin of an empty sequence *)
| ChoicesCount    (* np.choose needs between 1 and 31 choice arrays *)
| ShapeMismatch.  (* operands could not be broadcast together *)

Inductive result (A : Type) : Type :=
| Ok (a : A)
| Raise (e : exn).

Arguments Ok {A} a.
Arguments Raise {A} e.

Definition bind {A B : Type} (r : result A) (k : A -> result B) : result B :=
  match r with
  | Ok a => k a
  | Raise e => Raise e
  end.

Notation "x <- r ;; k" := (bind r (fun x => k))
  (at level 61, r at next level, right associativity).

Fixpoint mapM {A B : Type} (f : A -> result B) (l : list A) : result (list B) :=
  match l with
  | [] => Ok []
  | a :: r => b <- f a ;; bs <- mapM f r ;; Ok (b :: bs)
  end.

Fixpoint zip_with {A B C : Type} (f : A -> B -> C) (la : list A) (lb : list B)
  : list C :=
  match la, lb with
  | a :: ra, b :: rb => f a b :: zip_with f ra rb
  | _, _ => []
  end.

(** ** numpy primitives *)

Module Np.

(** Position and value of the first occurrence of the minimum of
    [x :: l]; ties go to the earliest position, as in [np.argmin]. *)
Fixpoint first_min (x : Z) (l : list Z) : nat * Z :=
  match l with
  | [] => (0%nat, x)
  | y :: r =>
      let (i, m) := first_min y r in
      if x <=? m then (0%nat, x) else (S i, m)
  end.

(** Same for the maximum, as in [np.argmax]. *)
Fixpoint first_max (x : Z) (l : list Z) : nat * Z :=
  match l with
  | [] => (0%nat, x)
  | y :: r =>
      let (i, m) := first_max y r in
      if m <=? x then (0%nat, x) else (S i, m)
  end.

Definition argmin (l : list Z) : result Z :=
  match l with
  | [] => Raise EmptySequence
  | x :: r => Ok (Z.of_nat (fst (first_min x r)))
  end.

Definition argmax (l : list Z) : result Z :=
  match l with
  | [] => Raise EmptySequence
  | x :: r => Ok (Z.of_nat (fst (first_max x r)))
  end.

(** [np.maximum] on integers. *)
Definition maximum (a b : Z) : Z := Z.max a b.

(** Index clipping of [mode='clip']: values below 0 map to 0, values
    above [n - 1] map to [n - 1]. *)
Definition clip (n : nat) (i : Z) : nat :=
  if i <? 0 then 0%nat
  else if Z.of_nat n - 1 <? i then (n - 1)%nat
  else Z.to_nat i.

(** [np.choose(a, choices, mode='clip')].  [choices] is the sequence of
    choice arrays, one per level; here it is given column by column
    ([cols] holds, for each column, the values of the [n] choice arrays
    at that column).  The index array [a] and the choice arrays must
    have the same shape; numpy accepts between 1 and 31 choice arrays. *)
Definition choose_clip (a : list Z) (n : nat) (cols : list (list Float.float))
  : result (list Float.float) :=
  if (n =? 0)%nat then Raise ChoicesCount
  else if (31 <? n)%nat then Raise ChoicesCount
  else if negb (length a =? length cols)%nat then Raise ShapeMismatch
  else Ok (zip_with (fun i c => nth (clip n i) c Float.nan) a cols).

End Np.

(** ** xarray primitives *)

Module Xr.

(** A labelled array with dimension 'lev' (carrying coordinate values)
    and flattened column dimensions. *)
Record DataArray (A : Type) : Type := mkDataArray {
  lev : list Float.float;
  columns : list (list A)
}.

Arguments mkDataArray {A} lev columns.
Arguments lev {A} d.
Arguments columns {A} d.

(** Every column runs over the whole 'lev' dimension. *)
Definition well_formed {A : Type} (a : DataArray A) : Prop :=
  Forall (fun c => length c = length (lev a)) (columns a).

Definition nlev {A : Type} (a : DataArray A) : nat := length (lev a).

(** Elementwise operation on the cells; coordinates are kept. *)
Definition map_cells {A B : Type} (f : A -> B) (a : DataArray A) : DataArray B :=
  mkDataArray (lev a) (map (map f) (columns a)).

(** [a.all(dim='lev')] on a boolean array. *)
Definition all_lev (a : DataArray bool) : list bool :=
  map (forallb (fun b => b)) (columns a).

(** [a.argmax(dim='lev')] on a boolean array ([True > False]); numpy
    raises as soon as the reduced axis is empty. *)
Definition argmax_lev (a : DataArray bool) : result (list Z) :=
  match lev a with
  | [] => Raise EmptySequence
  | _ => mapM (fun c => Np.argmax (map Z.b2z c)) (columns a)
  end.

(** [a.argmin(dim='lev')] on an integer array. *)
Definition argmin_lev (a : DataArray Z) : result (list Z) :=
  match lev a with
  | [] => Raise EmptySequence
  | _ => mapM Np.argmin (columns a)
  end.

(** [a.idxmax(dim='lev')] on a boolean array: the 'lev' coordinate
    label at the position [argmax] finds. *)
Definition idxmax_lev (a : DataArray bool) : result (list Float.float) :=
  indx <- argmax_lev a ;;
  Ok (map (fun i => nth (Z.to_nat i) (lev a) Float.nan) indx).

(** [a.where(cond)] on arrays over the columns: NaN where [cond] is
    false. *)
Definition where_nan (a : list Float.float) (cond : list bool) : list Float.float :=
  zip_with (fun x (c : bool) => if c then x else Float.nan) a cond.

(** [a.isel(lev=slice(start, stop))]. *)
Definition isel_lev_slice {A : Type} (start stop : nat) (a : DataArray A)
  : DataArray A :=
  let cut {X : Type} (l : list X) := firstn (stop - start) (skipn start l) in
  mkDataArray (cut (lev a)) (map cut (columns a)).

End Xr.

Import Xr.

(** ** cloud_top.py *)

(** Default of the [clw_thresh] argument. *)
Definition clw_thresh_default : Float.float := Float.f1em5.

(** [cloud_base_top(clw, clw_thresh)] returns
    [(idx_acb, idx_bct, clt_mask)], three arrays over the columns. *)
Definition cloud_base_top (clw : DataArray Float.float) (clw_thresh : Float.float)
  : result (list Z * list Z * list bool) :=
  (* clw_mask = xr.where(clw > clw_thresh, True, False) *)
  let clw_mask : DataArray bool :=
    map_cells (fun x => if Float.gtb x clw_thresh then true else false) clw in
  (* clt_mask = xr.where((clw < clw_thresh).all(dim='lev'), False, True) *)
  let clt_mask : list bool :=
    map (fun b : bool => if b then false else true)
        (all_lev (map_cells (fun x => Float.ltb x clw_thresh) clw)) in
  (* lev_acb = clw_mask.idxmax(dim='lev').where(clt_mask) *)
  lev_idxmax <- idxmax_lev clw_mask ;;
  let lev_acb : list Float.float := where_nan lev_idxmax clt_mask in
  (* idx_acb = clw_mask.argmax(dim='lev') *)
  idx_acb <- argmax_lev clw_mask ;;
  (* bct_mask = xr.where(clw_mask.lev < lev_acb, clw_mask, 0)
                + xr.where(clw_mask.lev >= lev_acb, 1, 0) *)
  let bct_mask : DataArray Z :=
    mkDataArray (lev clw_mask)
      (zip_with
         (fun (c : list bool) (l_acb : Float.float) =>
            zip_with
              (fun (l : Float.float) (m : bool) =>
                 (if Float.ltb l l_acb then Z.b2z m else 0)
                 + (if Float.geb l l_acb then 1 else 0))
              (lev clw_mask) c)
         (columns clw_mask) lev_acb) in
  (* idx_act = bct_mask.argmin(dim='lev') *)
  idx_act <- argmin_lev bct_mask ;;
  (* idx_bct = np.maximum(idx_act - 1, 0) *)
  let idx_bct : list Z := map (fun i => Np.maximum (i - 1) 0) idx_act in
  Ok (idx_acb, idx_bct, clt_mask).

(** [var_below_cloud_top(clt_mask=, idx_bct=, var=)].  The [print] of
    the dimension names has no effect on the returned array and is left
    out. *)
Definition var_below_cloud_top (clt_mask : list bool) (idx_bct : list Z)
  (var : DataArray Float.float) : result (list Float.float) :=
  (* var_to_choose = var.isel(lev=slice(0, 31)).transpose('lev', ...) *)
  let var_to_choose := isel_lev_slice 0 31 var in
  (* np.choose(idx_bct, choices=var_to_choose..., mode='clip') *)
  chosen <- Np.choose_clip idx_bct (nlev var_to_choose) (columns var_to_choose) ;;
  (* xr.where(clt_mask, chosen, np.nan) *)
  if negb (length clt_mask =? length chosen)%nat then Raise ShapeMismatch
  else Ok (zip_with (fun (m : bool) x => if m then x else Float.nan) clt_mask chosen).

(** The three outputs of [cloud_base_top] at column [k]. *)
Definition at_col (r : result (list Z * list Z * list bool)) (k : nat)
  : option (Z * Z * bool) :=
  match r with
  | Ok (idx_acb, idx_bct, clt_mask) =>
      match nth_error idx_acb k, nth_error idx_bct k, nth_error clt_mask k with
      | Some a, Some b, Some m => Some (a, b, m)
      | _, _, _ => None
      end
  | Raise _ => None
  end.

(** The output of [var_below_cloud_top] at column [k]. *)
Definition sampled_at (r : result (list Float.float)) (k : nat) : option Float.float :=
  match r with
  | Ok v => nth_error v k
  | Raise _ => None
  end.

(** A single-column array whose 'lev' coordinate is given. *)
Definition single_column (levs : list Float.float) (c : list Float.float)
  : DataArray Float.float :=
  mkDataArray levs [c].

Definition levs_down : list Float.float :=
  [Float.f50; Float.f40; Float.f30; Float.f20; Float.f10].
Definition levs_up : list Float.float :=
  [Float.f10; Float.f20; Float.f30; Float.f40; Float.f50].
Definition levs_index : list Float.float :=
  [Float.f0; Float.f1; Float.f2; Float.f3; Float.f4].


(** ** One column of [cloud_base_top]

    The same computation read off for a single column [c] of [clw]:
    every step of [cloud_base_top] is elementwise over the columns, so
    its outputs at a column are these (lemma [cloud_base_top_by_column]). *)

Section Column.

Variable levs : list Float.float.
Variable clw_thresh : Float.float.

Definition col_clw_mask (c : list Float.float) : list bool :=
  map (fun x => if Float.gtb x clw_thresh then true else false) c.

Definition col_clt_mask (c : list Float.float) : bool :=
  if forallb (fun b : bool => b) (map (fun x => Float.ltb x clw_thresh) c)
  then false else true.

Definition col_idx_acb (c : list Float.float) : Z :=
  match Np.argmax (map Z.b2z (col_clw_mask c)) with
  | Ok i => i
  | Raise _ => 0
  end.

Definition col_lev_acb (c : list Float.float) : Float.float :=
  if col_clt_mask c then nth (Z.to_nat (col_idx_acb c)) levs Float.nan
  else Float.nan.

Definition bct_cell (l_acb l : Float.float) (m : bool) : Z :=
  (if Float.ltb l l_acb then Z.b2z m else 0)
  + (if Float.geb l l_acb then 1 else 0).

Definition col_bct_mask (c : list Float.float) : list Z :=
  zip_with (bct_cell (col_lev_acb c)) levs (col_clw_mask c).

Definition col_idx_act (c : list Float.float) : Z :=
  match Np.argmin (col_bct_mask c) with
  | Ok i => i
  | Raise _ => 0
  end.

Definition col_idx_bct (c : list Float.float) : Z :=
  Np.maximum (col_idx_act c - 1) 0.

End Column.

(** 'lev' coordinate values that strictly increase, respectively
    strictly decrease, with the index. *)
Fixpoint strictly_increasing (l : list Float.float) : bool :=
  match l with
  | x :: (y :: _) as r => Float.ltb x y && strictly_increasing r
  | _ => true
  end.

Fixpoint strictly_decreasing (l : list Float.float) : bool :=
  match l with
  | x :: (y :: _) as r => Float.gtb x y && strictly_decreasing r
  | _ => true
  end.

(** The scenarios' profiles and coordinates. *)
Definition clw_scenario1 : list Float.float :=
  [Float.f0; Float.f0; Float.f2em5; Float.f3em5; Float.f0].
Definition clw_scenario4 : list Float.float :=
  [Float.f0; Float.f0; Float.f0; Float.f0; Float.f2em5].
Definition var_scenario5 : list Float.float :=
  [Float.f10; Float.f20; Float.f30; Float.f40; Float.f50].

(** ** Facts about the IEEE comparisons *)

Module FloatFacts.

Import Float.

Ltac cmp_cases :=
  repeat match goal with
    | H : context [Pos.compare_cont Eq ?a ?b] |- _ =>
        change (Pos.compare_cont Eq a b) with (Pos.compare a b) in H
    | |- context [Pos.compare_cont Eq ?a ?b] =>
        change (Pos.compare_cont Eq a b) with (Pos.compare a b)
    end;
  repeat match goal with
    | H : context [Z.compare ?a ?b] |- _ =>
        destruct (Z.compare_spec a b); simpl in H; try discriminate H
    | H : context [Pos.compare ?a ?b] |- _ =>
        destruct (Pos.compare_spec a b); simpl in H; try discriminate H
    end;
  repeat match goal with
    | |- context [Z.compare ?a ?b] => destruct (Z.compare_spec a b); simpl
    | |- context [Pos.compare ?a ?b] => destruct (Pos.compare_spec a b); simpl
    end;
  subst; try reflexivity; try discriminate; try lia.

Ltac float_cases :=
  unfold ltb, gtb, leb, geb, eqb, SFltb, SFleb, SFeqb, SFcompare in *;
  repeat match goal with
    | x : float |- _ => destruct x
    | x : spec_float |- _ => destruct x
    end;
  repeat match goal with
    | s : bool |- _ => destruct s
    end;
  simpl in *; try reflexivity; try discriminate; cmp_cases.

Lemma ltb_nan_l (y : float) : ltb nan y = false.
Proof. reflexivity. Qed.

Lemma ltb_nan_r (x : float) : ltb x nan = false.
Proof. destruct x; reflexivity. Qed.

Lemma leb_nan_l (y : float) : leb nan y = false.
Proof. reflexivity. Qed.

Lemma leb_nan_r (x : float) : leb x nan = false.
Proof. destruct x; reflexivity. Qed.

Lemma ltb_irrefl (x : float) : ltb x x = false.
Proof. float_cases. Qed.

Lemma ltb_asym (x y : float) : ltb x y = true -> ltb y x = false.
Proof. intros H. float_cases. Qed.

Lemma ltb_not_geb (x y : float) : ltb x y = true -> leb y x = false.
Proof. intros H. float_cases. Qed.

Lemma ltb_leb (x y : float) : ltb x y = true -> leb x y = true.
Proof. intros H. float_cases. Qed.

Lemma ltb_trans (x y z : float) :
  ltb x y = true -> ltb y z = true -> ltb x z = true.
Proof. intros H1 H2. float_cases. Qed.

Lemma ltb_leb_trans (x y z : float) :
  ltb x y = true -> leb y z = true -> ltb x z = true.
Proof. intros H1 H2. float_cases. Qed.

Lemma eqb_not_ltb (x y : float) : eqb x y = true -> ltb x y = false.
Proof. intros H. float_cases. Qed.

Lemma eqb_not_gtb (x y : float) : eqb x y = true -> gtb x y = false.
Proof. intros H. float_cases. Qed.

Lemma leb_refl (x : float) : is_nan x = false -> leb x x = true.
Proof. intros H. float_cases. Qed.

Lemma ltb_not_nan_l (x y : float) : ltb x y = true -> is_nan x = false.
Proof. intros H. destruct x; simpl in *; try reflexivity; discriminate. Qed.

Lemma leb_not_gtb (x y : float) : leb x y = true -> gtb x y = false.
Proof. intros H. float_cases. Qed.

End FloatFacts.

(** ** Lists *)

Lemma mapM_Ok_map {A B : Type} (f : A -> result B) (g : A -> B) (l : list A) :
  (forall a, In a l -> f a = Ok (g a)) -> mapM f l = Ok (map g l).
Proof.
  induction l as [|a r IH]; intros H; simpl.
  - reflexivity.
  - rewrite (H a (or_introl eq_refl)). simpl.
    rewrite IH by (intros b Hb; apply H; right; exact Hb).
    reflexivity.
Qed.

Lemma zip_with_map_map {A B C D : Type} (f : B -> C -> D) (g : A -> B)
  (h : A -> C) (l : list A) :
  zip_with f (map g l) (map h l) = map (fun a => f (g a) (h a)) l.
Proof.
  induction l as [|a r IH]; simpl; [reflexivity|]. now rewrite IH.
Qed.

Lemma zip_with_length {A B C : Type} (f : A -> B -> C) (la : list A) (lb : list B) :
  length la = length lb -> length (zip_with f la lb) = length la.
Proof.
  revert lb. induction la as [|a r IH]; intros [|b rb] H; simpl in *;
    try discriminate; [reflexivity|].
  f_equal. apply IH. now injection H.
Qed.

Lemma zip_with_nth_error {A B C : Type} (f : A -> B -> C) (la : list A)
  (lb : list B) (k : nat) (a : A) (b : B) :
  nth_error la k = Some a -> nth_error lb k = Some b ->
  nth_error (zip_with f la lb) k = Some (f a b).
Proof.
  revert lb k. induction la as [|x r IH]; intros [|y rb] [|k] Ha Hb;
    simpl in *; try discriminate.
  - now injection Ha as ->; injection Hb as ->.
  - now apply IH.
Qed.

(** ** argmin and argmax *)

Lemma first_min_In (x : Z) (l : list Z) : In (snd (Np.first_min x l)) (x :: l).
Proof.
  revert x. induction l as [|y r IH]; intros x; simpl.
  - now left.
  - specialize (IH y). destruct (Np.first_min y r) as [i m]. simpl in IH.
    destruct (x <=? m); simpl; [now left | right; exact IH].
Qed.

Lemma first_max_In (x : Z) (l : list Z) : In (snd (Np.first_max x l)) (x :: l).
Proof.
  revert x. induction l as [|y r IH]; intros x; simpl.
  - now left.
  - specialize (IH y). destruct (Np.first_max y r) as [i m]. simpl in IH.
    destruct (m <=? x); simpl; [now left | right; exact IH].
Qed.

Lemma first_min_head (x : Z) (l : list Z) :
  (forall y, In y l -> x <= y) -> fst (Np.first_min x l) = 0%nat.
Proof.
  destruct l as [|y r]; intros H; simpl; [reflexivity|].
  pose proof (first_min_In y r) as Hin.
  destruct (Np.first_min y r) as [i m]. simpl in Hin.
  specialize (H m Hin). apply Z.leb_le in H. now rewrite H.
Qed.

Lemma first_max_head (x : Z) (l : list Z) :
  (forall y, In y l -> y <= x) -> fst (Np.first_max x l) = 0%nat.
Proof.
  destruct l as [|y r]; intros H; simpl; [reflexivity|].
  pose proof (first_max_In y r) as Hin.
  destruct (Np.first_max y r) as [i m]. simpl in Hin.
  specialize (H m Hin). apply Z.leb_le in H. now rewrite H.
Qed.

Lemma first_min_bound (x : Z) (l : list Z) :
  (fst (Np.first_min x l) <= length l)%nat.
Proof.
  revert x. induction l as [|y r IH]; intros x; simpl; [lia|].
  specialize (IH y). destruct (Np.first_min y r) as [i m]. simpl in IH.
  destruct (x <=? m); simpl; lia.
Qed.

Lemma first_max_bound (x : Z) (l : list Z) :
  (fst (Np.first_max x l) <= length l)%nat.
Proof.
  revert x. induction l as [|y r IH]; intros x; simpl; [lia|].
  specialize (IH y). destruct (Np.first_max y r) as [i m]. simpl in IH.
  destruct (m <=? x); simpl; lia.
Qed.

Lemma mapM_map_Ok {A B C : Type} (f : B -> result C) (g : A -> B) (h : A -> C)
  (l : list A) :
  (forall a, In a l -> f (g a) = Ok (h a)) -> mapM f (map g l) = Ok (map h l).
Proof.
  induction l as [|a r IH]; intros H; simpl.
  - reflexivity.
  - rewrite (H a (or_introl eq_refl)). simpl.
    rewrite IH by (intros b Hb; apply H; right; exact Hb).
    reflexivity.
Qed.

Lemma argmax_total (l : list Z) :
  l <> [] ->
  Np.argmax l = Ok (match Np.argmax l with Ok i => i | Raise _ => 0 end).
Proof. destruct l; [congruence | reflexivity]. Qed.

Lemma argmin_total (l : list Z) :
  l <> [] ->
  Np.argmin l = Ok (match Np.argmin l with Ok i => i | Raise _ => 0 end).
Proof. destruct l; [congruence | reflexivity]. Qed.

Lemma nonempty_length {A : Type} (l : list A) : l <> [] <-> (0 < length l)%nat.
Proof. destruct l; simpl; split; intros; try congruence; lia. Qed.

(** ** [cloud_base_top], column by column *)

Lemma well_formed_column {A : Type} (a : DataArray A) (c : list A) :
  well_formed a -> In c (columns a) -> length c = length (lev a).
Proof. intros Hwf Hin. unfold well_formed in Hwf. rewrite Forall_forall in Hwf. now apply Hwf. Qed.

Lemma col_bct_mask_length (levs : list Float.float) (t : Float.float)
  (c : list Float.float) :
  length c = length levs -> length (col_bct_mask levs t c) = length levs.
Proof.
  intros H. unfold col_bct_mask. apply zip_with_length.
  unfold col_clw_mask. now rewrite length_map.
Qed.

Lemma cloud_base_top_by_column (clw : DataArray Float.float) (t : Float.float) :
  well_formed clw -> lev clw <> [] ->
  cloud_base_top clw t =
    Ok (map (col_idx_acb t) (columns clw),
        map (col_idx_bct (lev clw) t) (columns clw),
        map (col_clt_mask t) (columns clw)).
Proof.
  intros Hwf Hne.
  assert (Hacb : argmax_lev
            (map_cells (fun x => if Float.gtb x t then true else false) clw)
          = Ok (map (col_idx_acb t) (columns clw))).
  { unfold argmax_lev, map_cells. simpl.
    destruct (lev clw) as [|l0 ls] eqn:El; [congruence|].
    apply (mapM_map_Ok (fun c => Np.argmax (map Z.b2z c))
             (map (fun x => if Float.gtb x t then true else false))
             (col_idx_acb t)).
    intros c Hc.
    unfold col_idx_acb, col_clw_mask. apply argmax_total.
    apply nonempty_length. rewrite !length_map.
    rewrite (well_formed_column clw c Hwf Hc), El. simpl. lia. }
  unfold cloud_base_top, idxmax_lev.
  rewrite Hacb. simpl.
  unfold where_nan, all_lev, map_cells. simpl.
  rewrite !map_map. rewrite zip_with_map_map. rewrite zip_with_map_map.
  unfold argmin_lev. simpl.
  destruct (lev clw) as [|l0 ls] eqn:El; [congruence|].
  rewrite <- El.
  erewrite mapM_map_Ok with (h := col_idx_act (lev clw) t).
  - simpl. rewrite map_map. reflexivity.
  - intros c Hc. apply argmin_total. apply nonempty_length.
    change (0 < length (col_bct_mask (lev clw) t c))%nat.
    rewrite col_bct_mask_length by (now apply well_formed_column).
    rewrite El. simpl. lia.
Qed.

Lemma cloud_base_top_empty (clw : DataArray Float.float) (t : Float.float) :
  lev clw = [] -> cloud_base_top clw t = Raise EmptySequence.
Proof.
  intros E. unfold cloud_base_top, idxmax_lev, argmax_lev, map_cells. simpl.
  now rewrite E.
Qed.

Lemma at_col_cloud_base_top (clw : DataArray Float.float) (t : Float.float)
  (k : nat) (c : list Float.float) :
  well_formed clw -> lev clw <> [] -> nth_error (columns clw) k = Some c ->
  at_col (cloud_base_top clw t) k
  = Some (col_idx_acb t c, col_idx_bct (lev clw) t c, col_clt_mask t c).
Proof.
  intros Hwf Hne Hk. rewrite cloud_base_top_by_column by assumption.
  unfold at_col. rewrite !nth_error_map, Hk. reflexivity.
Qed.

Lemma at_col_inv (clw : DataArray Float.float) (t : Float.float)
  (k : nat) (a b : Z) (m : bool) :
  well_formed clw -> at_col (cloud_base_top clw t) k = Some (a, b, m) ->
  exists c, nth_error (columns clw) k = Some c /\ lev clw <> [] /\
            a = col_idx_acb t c /\ b = col_idx_bct (lev clw) t c /\
            m = col_clt_mask t c.
Proof.
  intros Hwf H.
  destruct (lev clw) as [|l0 ls] eqn:El.
  - rewrite cloud_base_top_empty in H by assumption. discriminate.
  - assert (Hne : lev clw <> []) by (rewrite El; discriminate).
    destruct (nth_error (columns clw) k) as [c|] eqn:Hk.
    + rewrite (at_col_cloud_base_top clw t k c Hwf Hne Hk), El in H.
      injection H as <- <- <-. exists c. rewrite <- El. repeat split.
      rewrite El. discriminate.
    + rewrite cloud_base_top_by_column in H by assumption.
      unfold at_col in H. rewrite !nth_error_map, Hk in H. discriminate.
Qed.

(** ** Columns *)

Lemma forallb_id_map {A : Type} (f : A -> bool) (l : list A) :
  forallb (fun b : bool => b) (map f l) = forallb f l.
Proof. induction l as [|a r IH]; simpl; [reflexivity | now rewrite IH]. Qed.

Lemma col_clt_mask_false (t : Float.float) (c : list Float.float) :
  col_clt_mask t c = false <-> (forall x, In x c -> Float.ltb x t = true).
Proof.
  unfold col_clt_mask. rewrite forallb_id_map.
  destruct (forallb _ c) eqn:E.
  - rewrite forallb_forall in E. split; [intros _; exact E | reflexivity].
  - split; [discriminate|]. intros H. rewrite <- forallb_forall in H.
    rewrite H in E. discriminate.
Qed.

Lemma col_clt_mask_true (t : Float.float) (c : list Float.float) :
  col_clt_mask t c = true <-> (exists x, In x c /\ Float.ltb x t = false).
Proof.
  split.
  - intros H. destruct (existsb (fun x => negb (Float.ltb x t)) c) eqn:E.
    + apply existsb_exists in E. destruct E as [x [Hin Hx]].
      exists x. split; [exact Hin|]. now apply negb_true_iff.
    + assert (Hf : col_clt_mask t c = false).
      { apply col_clt_mask_false. intros x Hin.
        destruct (Float.ltb x t) eqn:Ex; [reflexivity|].
        assert (existsb (fun x => negb (Float.ltb x t)) c = true).
        { apply existsb_exists. exists x. split; [exact Hin|]. now rewrite Ex. }
        congruence. }
      congruence.
  - intros [x [Hin Hx]]. destruct (col_clt_mask t c) eqn:E; [reflexivity|].
    rewrite col_clt_mask_false in E. rewrite (E x Hin) in Hx. discriminate.
Qed.

Lemma b2z_range (l : list bool) (y : Z) : In y (map Z.b2z l) -> 0 <= y <= 1.
Proof.
  intros H. apply in_map_iff in H. destruct H as [b [<- _]]. destruct b; simpl; lia.
Qed.

Lemma col_idx_acb_bounds (t : Float.float) (c : list Float.float) :
  c <> [] -> 0 <= col_idx_acb t c < Z.of_nat (length c).
Proof.
  intros Hne. unfold col_idx_acb, col_clw_mask.
  destruct c as [|x r]; [congruence|]. simpl.
  pose proof (first_max_bound
    (Z.b2z (if Float.gtb x t then true else false))
    (map Z.b2z (map (fun x => if Float.gtb x t then true else false) r))) as Hb.
  rewrite !length_map in Hb. lia.
Qed.

Lemma col_idx_acb_no_cloud (t : Float.float) (c : list Float.float) :
  (forall x, In x c -> Float.gtb x t = false) -> col_idx_acb t c = 0.
Proof.
  intros H. unfold col_idx_acb, col_clw_mask.
  destruct c as [|x r]; [reflexivity|]. simpl.
  rewrite (H x (or_introl eq_refl)). simpl.
  rewrite first_max_head; [reflexivity|].
  intros y Hy. rewrite map_map in Hy. apply in_map_iff in Hy.
  destruct Hy as [z [<- Hz]]. rewrite (H z (or_intror Hz)). simpl. lia.
Qed.

Lemma col_idx_act_bounds (levs : list Float.float) (t : Float.float)
  (c : list Float.float) :
  length c = length levs -> levs <> [] ->
  0 <= col_idx_act levs t c < Z.of_nat (length levs).
Proof.
  intros Hlen Hne. unfold col_idx_act.
  pose proof (col_bct_mask_length levs t c Hlen) as Hl.
  destruct (col_bct_mask levs t c) as [|x r].
  - simpl in Hl. apply nonempty_length in Hne. lia.
  - simpl in *. pose proof (first_min_bound x r). lia.
Qed.

Lemma col_idx_bct_bounds (levs : list Float.float) (t : Float.float)
  (c : list Float.float) :
  length c = length levs -> levs <> [] ->
  0 <= col_idx_bct levs t c <= Z.max (Z.of_nat (length levs) - 2) 0.
Proof.
  intros Hlen Hne. unfold col_idx_bct, Np.maximum.
  pose proof (col_idx_act_bounds levs t c Hlen Hne). lia.
Qed.

Lemma bct_cell_nan (l : Float.float) (m : bool) : bct_cell Float.nan l m = 0.
Proof.
  unfold bct_cell, Float.geb.
  rewrite FloatFacts.ltb_nan_r. simpl. reflexivity.
Qed.

Lemma zip_with_In {A B C : Type} (f : A -> B -> C) (la : list A) (lb : list B)
  (z : C) :
  In z (zip_with f la lb) -> exists a b, In a la /\ In b lb /\ z = f a b.
Proof.
  revert lb. induction la as [|a r IH]; intros [|b rb] H; simpl in H;
    try contradiction.
  destruct H as [<- | H].
  - exists a, b. simpl. auto.
  - destruct (IH rb H) as [a' [b' [Ha [Hb E]]]]. exists a', b'. simpl. auto.
Qed.

Lemma argmin_head_least (x : Z) (l : list Z) :
  (forall y, In y l -> x <= y) ->
  match Np.argmin (x :: l) with Ok i => i | Raise _ => 0 end = 0.
Proof. intros H. simpl. now rewrite first_min_head. Qed.

Lemma col_idx_act_no_cloud (levs : list Float.float) (t : Float.float)
  (c : list Float.float) :
  col_clt_mask t c = false -> col_idx_act levs t c = 0.
Proof.
  intros Hm. unfold col_idx_act.
  assert (Hall : forall y, In y (col_bct_mask levs t c) -> y = 0).
  { intros y Hy. unfold col_bct_mask, col_lev_acb in Hy. rewrite Hm in Hy.
    apply zip_with_In in Hy. destruct Hy as [l [m [_ [_ ->]]]].
    apply bct_cell_nan. }
  destruct (col_bct_mask levs t c) as [|x r]; [reflexivity|].
  apply argmin_head_least. intros y Hy.
  rewrite (Hall x (or_introl eq_refl)), (Hall y (or_intror Hy)). lia.
Qed.

(** ** Claims about [cloud_base_top] *)

(** C8.  For a clw profile with a non-empty level axis and any threshold,
    [cloud_base_top] returns, and in every column the returned [idx_acb]
    and [idx_bct] lie in [0, size of the level axis). *)
Theorem idx_within_level_axis (clw : DataArray Float.float) (t : Float.float)
  (k : nat) (c : list Float.float) :
  well_formed clw -> (0 < nlev clw)%nat ->
  nth_error (columns clw) k = Some c ->
  exists a b m,
    at_col (cloud_base_top clw t) k = Some (a, b, m) /\
    0 <= a < Z.of_nat (nlev clw) /\
    0 <= b < Z.of_nat (nlev clw).
Proof.
  intros Hwf Hn Hk. unfold nlev in *.
  assert (Hne : lev clw <> []) by now apply nonempty_length.
  assert (Hlen : length c = length (lev clw)).
  { apply well_formed_column; [exact Hwf|]. eapply nth_error_In; eassumption. }
  exists (col_idx_acb t c), (col_idx_bct (lev clw) t c), (col_clt_mask t c).
  split; [now apply at_col_cloud_base_top|].
  split.
  - rewrite <- Hlen. apply col_idx_acb_bounds.
    apply nonempty_length. lia.
  - pose proof (col_idx_bct_bounds (lev clw) t c Hlen Hne). lia.
Qed.

Lemma idx_within_level_axis_witness :
  exists a b m,
    at_col (cloud_base_top (single_column levs_down clw_scenario1)
              clw_thresh_default) 0 = Some (a, b, m) /\
    0 <= a < 5 /\ 0 <= b < 5.
Proof.
  apply (idx_within_level_axis (single_column levs_down clw_scenario1)
           clw_thresh_default 0 clw_scenario1).
  - repeat constructor.
  - unfold nlev. simpl. lia.
  - reflexivity.
Defined.

(** C9.  Raising the threshold never turns [clt_mask] from False to
    True: if a column's [clt_mask] is False with threshold [t1] and
    [t1 <= t2], then [cloud_base_top] with threshold [t2] also returns
    False for that column. *)
Theorem clt_mask_threshold_monotone (clw : DataArray Float.float)
  (t1 t2 : Float.float) (k : nat) (a1 b1 : Z) :
  well_formed clw -> Float.leb t1 t2 = true ->
  at_col (cloud_base_top clw t1) k = Some (a1, b1, false) ->
  exists a2 b2, at_col (cloud_base_top clw t2) k = Some (a2, b2, false).
Proof.
  intros Hwf Hle H.
  destruct (at_col_inv clw t1 k a1 b1 false Hwf H)
    as [c [Hk [Hne [_ [_ Hm]]]]].
  exists (col_idx_acb t2 c), (col_idx_bct (lev clw) t2 c).
  rewrite (at_col_cloud_base_top clw t2 k c Hwf Hne Hk).
  do 2 f_equal. apply col_clt_mask_false. intros x Hx.
  symmetry in Hm. rewrite col_clt_mask_false in Hm.
  apply FloatFacts.ltb_leb_trans with (y := t1); [now apply Hm | exact Hle].
Qed.

Lemma clt_mask_threshold_monotone_witness :
  exists a2 b2,
    at_col (cloud_base_top (single_column [Float.f20; Float.f10] [Float.f0; Float.f1em5])
              Float.f3em5) 0 = Some (a2, b2, false).
Proof.
  apply (clt_mask_threshold_monotone
           (single_column [Float.f20; Float.f10] [Float.f0; Float.f1em5])
           Float.f2em5 Float.f3em5 0 0 0).
  - repeat constructor.
  - reflexivity.
  - reflexivity.
Defined.

(** ** [var_below_cloud_top] *)

Lemma isel_first_31 (var : DataArray Float.float) :
  isel_lev_slice 0 31 var
  = mkDataArray (firstn 31 (lev var)) (map (firstn 31) (columns var)).
Proof. reflexivity. Qed.

Lemma var_below_cloud_top_Ok (clt : list bool) (idx : list Z)
  (var : DataArray Float.float) :
  (0 < nlev var)%nat -> length clt = length idx ->
  length idx = length (columns var) ->
  var_below_cloud_top clt idx var
  = Ok (zip_with (fun (m : bool) x => if m then x else Float.nan) clt
          (zip_with (fun i c => nth (Np.clip (Nat.min 31 (nlev var)) i) c Float.nan)
             idx (map (firstn 31) (columns var)))).
Proof.
  intros Hn H1 H2. unfold var_below_cloud_top. rewrite isel_first_31.
  unfold Np.choose_clip, nlev in *. cbn [lev columns].
  rewrite length_firstn, length_map.
  replace (Nat.min 31 (length (lev var)) =? 0)%nat with false
    by (symmetry; apply Nat.eqb_neq; lia).
  replace (31 <? Nat.min 31 (length (lev var)))%nat with false
    by (symmetry; apply Nat.ltb_ge; lia).
  rewrite H2, Nat.eqb_refl. cbn [negb bind].
  rewrite zip_with_length by (rewrite length_map; exact H2).
  rewrite H1, Nat.eqb_refl. reflexivity.
Qed.

Lemma var_below_cloud_top_first_31 (clt : list bool) (idx : list Z)
  (var var' : DataArray Float.float) :
  firstn 31 (lev var') = firstn 31 (lev var) ->
  map (firstn 31) (columns var') = map (firstn 31) (columns var) ->
  var_below_cloud_top clt idx var' = var_below_cloud_top clt idx var.
Proof.
  intros Hl Hc. unfold var_below_cloud_top. rewrite !isel_first_31.
  unfold nlev. cbn [lev columns]. now rewrite Hl, Hc.
Qed.

Lemma sampled_at_column (clt : list bool) (idx : list Z)
  (var : DataArray Float.float) (k : nat) (m : bool) (i : Z)
  (c : list Float.float) :
  (0 < nlev var)%nat -> length clt = length idx ->
  length idx = length (columns var) ->
  nth_error clt k = Some m -> nth_error idx k = Some i ->
  nth_error (columns var) k = Some c ->
  sampled_at (var_below_cloud_top clt idx var) k
  = Some (if m then nth (Np.clip (Nat.min 31 (nlev var)) i) (firstn 31 c) Float.nan
          else Float.nan).
Proof.
  intros Hn H1 H2 Hm Hi Hc.
  rewrite var_below_cloud_top_Ok by assumption. unfold sampled_at.
  rewrite (zip_with_nth_error _ clt _ k m
             (nth (Np.clip (Nat.min 31 (nlev var)) i) (firstn 31 c) Float.nan) Hm);
    [reflexivity|].
  rewrite (zip_with_nth_error _ idx _ k i (firstn 31 c) Hi); [reflexivity|].
  rewrite nth_error_map, Hc. reflexivity.
Qed.

Lemma nth_error_same_length {A B : Type} (la : list A) (lb : list B) (k : nat)
  (a : A) :
  length la = length lb -> nth_error la k = Some a ->
  exists b, nth_error lb k = Some b.
Proof.
  intros Hlen Ha.
  assert (Hk : (k < length la)%nat) by (apply nth_error_Some; congruence).
  destruct (nth_error lb k) as [b|] eqn:E; [now exists b|].
  apply nth_error_None in E. lia.
Qed.

(** C6.  [cloud_base_top] returns on a non-empty level axis, and for
    every column whose returned [clt_mask] is False it returns
    [idx_acb = 0] and [idx_bct = 0]; [var_below_cloud_top], given that
    mask and index array and any [var] over the same columns (with at
    least one level), returns NaN for that column. *)
Theorem no_cloud_column (clw var : DataArray Float.float) (t : Float.float) :
  well_formed clw -> (0 < nlev clw)%nat -> (0 < nlev var)%nat ->
  length (columns var) = length (columns clw) ->
  exists idx_acb idx_bct clt_mask,
    cloud_base_top clw t = Ok (idx_acb, idx_bct, clt_mask) /\
    forall k, nth_error clt_mask k = Some false ->
      at_col (cloud_base_top clw t) k = Some (0, 0, false) /\
      sampled_at (var_below_cloud_top clt_mask idx_bct var) k = Some Float.nan.
Proof.
  intros Hwf Hn Hv Hlen. unfold nlev in Hn.
  assert (Hne : lev clw <> []) by now apply nonempty_length.
  exists (map (col_idx_acb t) (columns clw)),
         (map (col_idx_bct (lev clw) t) (columns clw)),
         (map (col_clt_mask t) (columns clw)).
  split; [now apply cloud_base_top_by_column|].
  intros k Hk. rewrite nth_error_map in Hk.
  destruct (nth_error (columns clw) k) as [c|] eqn:Ec; [|discriminate].
  injection Hk as Hm. split.
  - rewrite (at_col_cloud_base_top clw t k c Hwf Hne Ec), Hm.
    assert (Hlt : forall x, In x c -> Float.ltb x t = true)
      by now apply col_clt_mask_false.
    rewrite col_idx_acb_no_cloud
      by (intros x Hx; apply FloatFacts.ltb_asym; now apply Hlt).
    unfold col_idx_bct. rewrite col_idx_act_no_cloud by exact Hm.
    reflexivity.
  - destruct (nth_error_same_length (columns clw) (columns var) k c)
      as [cv Hcv]; [now symmetry | exact Ec |].
    rewrite (sampled_at_column _ _ var k false (col_idx_bct (lev clw) t c) cv);
      try assumption; try reflexivity.
    + now rewrite !length_map.
    + now rewrite length_map.
    + rewrite nth_error_map, Ec. simpl. now rewrite Hm.
    + now rewrite nth_error_map, Ec.
Qed.

Lemma no_cloud_column_witness :
  exists idx_acb idx_bct clt_mask,
    cloud_base_top (single_column levs_down [Float.f0; Float.f0; Float.f0; Float.f0; Float.f0])
      clw_thresh_default = Ok (idx_acb, idx_bct, clt_mask) /\
    forall k, nth_error clt_mask k = Some false ->
      at_col (cloud_base_top
                (single_column levs_down [Float.f0; Float.f0; Float.f0; Float.f0; Float.f0])
                clw_thresh_default) k = Some (0, 0, false) /\
      sampled_at (var_below_cloud_top clt_mask idx_bct
                    (single_column levs_down var_scenario5)) k = Some Float.nan.
Proof.
  apply (no_cloud_column
           (single_column levs_down [Float.f0; Float.f0; Float.f0; Float.f0; Float.f0])
           (single_column levs_down var_scenario5) clw_thresh_default).
  - repeat constructor.
  - unfold nlev. simpl. lia.
  - unfold nlev. simpl. lia.
  - reflexivity.
Defined.

Lemma clip_nonneg (n : nat) (i : Z) :
  (0 < n)%nat -> 0 <= i ->
  Np.clip n i = Z.to_nat (Z.min i (Z.of_nat n - 1)).
Proof.
  intros Hn Hi. unfold Np.clip.
  destruct (Z.ltb_spec i 0); [lia|].
  destruct (Z.ltb_spec (Z.of_nat n - 1) i); lia.
Qed.

(** C7.  For a cloudy column and a non-negative [idx_bct],
    [var_below_cloud_top] returns (it does not raise) [var]'s value at
    level index [min(idx_bct, min(31, nlevels) - 1)]; that index is below
    31 and within the level axis; the result does not depend on any
    level of [var] at index 31 or beyond; and with [clt_mask = True],
    [idx_bct = 3], [var = [10, 20, 30, 40, 50]] the result is 40. *)
Theorem sample_at_clipped_index (clt : list bool) (idx : list Z)
  (var : DataArray Float.float) (k : nat) (i : Z) (c : list Float.float) :
  well_formed var -> (0 < nlev var)%nat ->
  length clt = length idx -> length idx = length (columns var) ->
  nth_error clt k = Some true -> nth_error idx k = Some i -> 0 <= i ->
  nth_error (columns var) k = Some c ->
  let j := Z.to_nat (Z.min i (Z.min 31 (Z.of_nat (nlev var)) - 1)) in
  (j < 31)%nat /\ (j < nlev var)%nat /\
  sampled_at (var_below_cloud_top clt idx var) k = nth_error c j /\
  (forall var' : DataArray Float.float,
      firstn 31 (lev var') = firstn 31 (lev var) ->
      map (firstn 31) (columns var') = map (firstn 31) (columns var) ->
      var_below_cloud_top clt idx var' = var_below_cloud_top clt idx var) /\
  sampled_at (var_below_cloud_top [true] [3]
                (single_column levs_down var_scenario5)) 0 = Some Float.f40.
Proof.
  intros Hwf Hn H1 H2 Hm Hi Hi0 Hc j.
  assert (Hlen : length c = nlev var).
  { apply well_formed_column; [exact Hwf|]. eapply nth_error_In; eassumption. }
  assert (Hj31 : (j < 31)%nat) by (subst j; lia).
  assert (Hjn : (j < nlev var)%nat) by (subst j; lia).
  repeat split; try assumption.
  - rewrite (sampled_at_column clt idx var k true i c) by assumption.
    rewrite clip_nonneg by lia.
    replace (Z.to_nat (Z.min i (Z.of_nat (Nat.min 31 (nlev var)) - 1))) with j
      by (subst j; lia).
    rewrite nth_firstn.
    replace (j <? 31)%nat with true by (symmetry; now apply Nat.ltb_lt).
    symmetry. apply nth_error_nth'. lia.
  - intros var' Hl Hcs. now apply var_below_cloud_top_first_31.
Qed.

Lemma sample_at_clipped_index_witness :
  let var := single_column levs_down var_scenario5 in
  let j := Z.to_nat (Z.min 7 (Z.min 31 (Z.of_nat (nlev var)) - 1)) in
  (j < 31)%nat /\ (j < nlev var)%nat /\
  sampled_at (var_below_cloud_top [true] [7] var) 0 = nth_error var_scenario5 j /\
  (forall var' : DataArray Float.float,
      firstn 31 (lev var') = firstn 31 (lev var) ->
      map (firstn 31) (columns var') = map (firstn 31) (columns var) ->
      var_below_cloud_top [true] [7] var' = var_below_cloud_top [true] [7] var) /\
  sampled_at (var_below_cloud_top [true] [3]
                (single_column levs_down var_scenario5)) 0 = Some Float.f40.
Proof.
  apply (sample_at_clipped_index [true] [7]
           (single_column levs_down var_scenario5) 0 7 var_scenario5).
  - repeat constructor.
  - unfold nlev. simpl. lia.
  - reflexivity.
  - reflexivity.
  - reflexivity.
  - reflexivity.
  - lia.
  - reflexivity.
Defined.

(** C10.  A column holding a NaN, or holding a value equal to the
    threshold, gets [clt_mask = True] from [cloud_base_top], also when
    no level of the column exceeds the threshold (in which case the
    reported [idx_acb] is 0): the mask is the negation of "every level
    satisfies clw < threshold", which NaN and the threshold itself both
    fail.  In particular this holds for a column whose maximum equals the
    threshold. *)
Theorem clt_mask_true_on_nan_or_equal (clw : DataArray Float.float)
  (t : Float.float) (k : nat) (c : list Float.float) (x : Float.float) :
  well_formed clw -> nth_error (columns clw) k = Some c -> In x c ->
  Float.is_nan x = true \/ Float.eqb x t = true ->
  exists a b,
    at_col (cloud_base_top clw t) k = Some (a, b, true) /\
    ((forall y, In y c -> Float.gtb y t = false) -> a = 0).
Proof.
  intros Hwf Hk Hx Hcase.
  assert (Hlen : length c = length (lev clw)).
  { apply well_formed_column; [exact Hwf|]. eapply nth_error_In; eassumption. }
  assert (Hne : lev clw <> []).
  { apply nonempty_length. rewrite <- Hlen. destruct c; [contradiction | simpl; lia]. }
  exists (col_idx_acb t c), (col_idx_bct (lev clw) t c).
  rewrite (at_col_cloud_base_top clw t k c Hwf Hne Hk). split.
  - do 2 f_equal. apply col_clt_mask_true. exists x. split; [exact Hx|].
    destruct Hcase as [Hnan | Heq].
    + destruct x; try discriminate. apply FloatFacts.ltb_nan_l.
    + now apply FloatFacts.eqb_not_ltb.
  - apply col_idx_acb_no_cloud.
Qed.

Lemma clt_mask_true_on_nan_or_equal_witness :
  exists a b,
    at_col (cloud_base_top
              (single_column [Float.f20; Float.f10] [Float.f0; Float.nan])
              clw_thresh_default) 0 = Some (a, b, true) /\
    ((forall y, In y [Float.f0; Float.nan] ->
                Float.gtb y clw_thresh_default = false) -> a = 0).
Proof.
  apply (clt_mask_true_on_nan_or_equal
           (single_column [Float.f20; Float.f10] [Float.f0; Float.nan])
           clw_thresh_default 0 [Float.f0; Float.nan] Float.nan).
  - repeat constructor.
  - reflexivity.
  - simpl. auto.
  - left. reflexivity.
Defined.

(** ** Increasing 'lev' coordinate *)

Lemma strictly_increasing_head (l0 : Float.float) (ls : list Float.float) :
  strictly_increasing (l0 :: ls) = true ->
  forall y, In y ls -> Float.ltb l0 y = true.
Proof.
  revert l0. induction ls as [|l1 r IH]; intros l0 H y Hy; [contradiction|].
  simpl in H. apply andb_true_iff in H. destruct H as [H01 Hr].
  destruct Hy as [<- | Hy]; [exact H01|].
  apply FloatFacts.ltb_trans with (y := l1); [exact H01|].
  now apply IH.
Qed.

Lemma bct_cell_nonneg (l_acb l : Float.float) (m : bool) : 0 <= bct_cell l_acb l m.
Proof.
  unfold bct_cell. destruct (Float.ltb l l_acb), (Float.geb l l_acb), m; simpl; lia.
Qed.

Lemma bct_cell_below (l_acb l : Float.float) (m : bool) :
  Float.ltb l_acb l = true -> bct_cell l_acb l m = 1.
Proof.
  intros H.
  pose proof (FloatFacts.ltb_asym _ _ H) as H1.
  pose proof (FloatFacts.ltb_leb _ _ H) as H2.
  unfold bct_cell, Float.geb, Float.ltb, Float.leb in *.
  rewrite H1, H2. reflexivity.
Qed.

Lemma bct_cell_at (l : Float.float) (m : bool) :
  Float.is_nan l = false -> bct_cell l l m = 1.
Proof.
  intros H.
  pose proof (FloatFacts.ltb_irrefl l) as H1.
  pose proof (FloatFacts.leb_refl l H) as H2.
  unfold bct_cell, Float.geb, Float.ltb, Float.leb in *.
  rewrite H1, H2. reflexivity.
Qed.

Lemma bct_cell_above_clear (l_acb l : Float.float) :
  Float.ltb l l_acb = true -> bct_cell l_acb l false = 0.
Proof.
  intros H.
  pose proof (FloatFacts.ltb_not_geb _ _ H) as H1.
  unfold bct_cell, Float.geb, Float.ltb, Float.leb in *.
  rewrite H, H1. reflexivity.
Qed.

Lemma first_max_true_head (r : list bool) :
  fst (Np.first_max (Z.b2z true) (map Z.b2z r)) = 0%nat.
Proof.
  apply first_max_head. intros y Hy. apply b2z_range in Hy. simpl. lia.
Qed.

Lemma col_bct_mask_cons (l0 : Float.float) (ls : list Float.float)
  (t x0 : Float.float) (r : list Float.float) :
  col_bct_mask (l0 :: ls) t (x0 :: r)
  = bct_cell (col_lev_acb (l0 :: ls) t (x0 :: r)) l0
      (if Float.gtb x0 t then true else false)
    :: zip_with (bct_cell (col_lev_acb (l0 :: ls) t (x0 :: r))) ls
         (col_clw_mask t r).
Proof. reflexivity. Qed.

Lemma col_idx_acb_cons (t x0 : Float.float) (r : list Float.float) :
  col_idx_acb t (x0 :: r)
  = Z.of_nat (fst (Np.first_max
                     (Z.b2z (if Float.gtb x0 t then true else false))
                     (map Z.b2z (col_clw_mask t r)))).
Proof. reflexivity. Qed.

Lemma bct_mask_increasing (levs : list Float.float) (t : Float.float)
  (c : list Float.float) :
  levs <> [] -> length c = length levs -> strictly_increasing levs = true ->
  hd 1 (col_bct_mask levs t c) = 0 \/
  (Forall (fun v => v = 1) (col_bct_mask levs t c) /\ col_idx_acb t c = 0).
Proof.
  intros Hne Hlen Hinc.
  destruct levs as [|l0 ls]; [congruence|].
  destruct c as [|x0 r]; [discriminate|].
  simpl in Hlen. injection Hlen as Hlen.
  pose proof (strictly_increasing_head l0 ls Hinc) as Hhead.
  rewrite col_bct_mask_cons. cbn [hd].
  unfold col_lev_acb. destruct (col_clt_mask t (x0 :: r)).
  2:{ left. apply bct_cell_nan. }
  rewrite col_idx_acb_cons, Nat2Z.id.
  pose proof (first_max_bound
                (Z.b2z (if Float.gtb x0 t then true else false))
                (map Z.b2z (col_clw_mask t r))) as Hb.
  assert (Hl : length (map Z.b2z (col_clw_mask t r)) = length r)
    by (unfold col_clw_mask; now rewrite !length_map).
  rewrite Hl in Hb. clear Hl.
  destruct (fst (Np.first_max _ _)) as [|j] eqn:Ej.
  - cbn [nth]. destruct (Float.is_nan l0) eqn:En.
    + left. destruct l0; try discriminate. apply bct_cell_nan.
    + right. split; [|reflexivity].
      constructor; [now apply bct_cell_at|].
      apply Forall_forall. intros z Hz.
      apply zip_with_In in Hz. destruct Hz as [l [m [Hl [_ ->]]]].
      apply bct_cell_below. now apply Hhead.
  - left. cbn [nth].
    destruct (Float.gtb x0 t) eqn:Eg.
    + unfold col_clw_mask in Ej. rewrite first_max_true_head in Ej. discriminate.
    + apply bct_cell_above_clear. apply Hhead. apply nth_In. lia.
Qed.

Lemma col_idx_act_increasing (levs : list Float.float) (t : Float.float)
  (c : list Float.float) :
  levs <> [] -> length c = length levs -> strictly_increasing levs = true ->
  col_idx_act levs t c = 0.
Proof.
  intros Hne Hlen Hinc.
  pose proof (bct_mask_increasing levs t c Hne Hlen Hinc) as Hd.
  assert (Hnn : forall y, In y (col_bct_mask levs t c) -> 0 <= y).
  { intros y Hy. unfold col_bct_mask in Hy. apply zip_with_In in Hy.
    destruct Hy as [l [m [_ [_ ->]]]]. apply bct_cell_nonneg. }
  unfold col_idx_act.
  destruct (col_bct_mask levs t c) as [|v vs]; [reflexivity|].
  apply argmin_head_least. intros y Hy.
  destruct Hd as [H0 | [H1 _]].
  - simpl in H0. subst v. apply Hnn. now right.
  - rewrite Forall_forall in H1.
    rewrite (H1 v (or_introl eq_refl)), (H1 y (or_intror Hy)). lia.
Qed.

(** C1.  When the 'lev' coordinate values strictly increase with the
    index, [cloud_base_top] returns [idx_bct = 0] in every column, cloudy
    or not, for every threshold: the auxiliary [bct_mask] of the column
    is 0 at index 0, or it is all ones with [idx_acb = 0]; either way its
    argmin is 0 and [max(0 - 1, 0) = 0]. *)
Theorem idx_bct_zero_when_lev_increases (clw : DataArray Float.float)
  (t : Float.float) (k : nat) (c : list Float.float) :
  well_formed clw -> (0 < nlev clw)%nat ->
  strictly_increasing (lev clw) = true ->
  nth_error (columns clw) k = Some c ->
  (exists a m, at_col (cloud_base_top clw t) k = Some (a, 0, m)) /\
  (hd 1 (col_bct_mask (lev clw) t c) = 0 \/
   (Forall (fun v => v = 1) (col_bct_mask (lev clw) t c) /\
    col_idx_acb t c = 0)) /\
  col_idx_act (lev clw) t c = 0.
Proof.
  intros Hwf Hn Hinc Hk. unfold nlev in Hn.
  assert (Hne : lev clw <> []) by now apply nonempty_length.
  assert (Hlen : length c = length (lev clw)).
  { apply well_formed_column; [exact Hwf|]. eapply nth_error_In; eassumption. }
  pose proof (col_idx_act_increasing (lev clw) t c Hne Hlen Hinc) as Hact.
  split; [|split].
  - exists (col_idx_acb t c), (col_clt_mask t c).
    rewrite (at_col_cloud_base_top clw t k c Hwf Hne Hk).
    unfold col_idx_bct. rewrite Hact. reflexivity.
  - now apply bct_mask_increasing.
  - exact Hact.
Qed.

Lemma idx_bct_zero_when_lev_increases_witness :
  (exists a m,
      at_col (cloud_base_top (single_column levs_up clw_scenario1)
                clw_thresh_default) 0 = Some (a, 0, m)) /\
  (hd 1 (col_bct_mask levs_up clw_thresh_default clw_scenario1) = 0 \/
   (Forall (fun v => v = 1)
      (col_bct_mask levs_up clw_thresh_default clw_scenario1) /\
    col_idx_acb clw_thresh_default clw_scenario1 = 0)) /\
  col_idx_act levs_up clw_thresh_default clw_scenario1 = 0.
Proof.
  apply (idx_bct_zero_when_lev_increases
           (single_column levs_up clw_scenario1) clw_thresh_default 0
           clw_scenario1).
  - repeat constructor.
  - unfold nlev. simpl. lia.
  - reflexivity.
  - reflexivity.
Defined.

(** ** Decreasing 'lev' coordinate (the NOTE in the source) *)

Lemma bct_cell_above_cloudy (l_acb l : Float.float) :
  Float.ltb l l_acb = true -> bct_cell l_acb l true = 1.
Proof.
  intros H.
  pose proof (FloatFacts.ltb_not_geb _ _ H) as H1.
  unfold bct_cell, Float.geb, Float.ltb, Float.leb in *.
  rewrite H, H1. reflexivity.
Qed.

(** C2, as the code has it.  With 'lev' coordinate values that strictly
    decrease with the index (the source's NOTE: level descends with
    index), the single column CLW = [0, 0, 2e-5, 3e-5, 0] with threshold
    1.0e-5 gives [clt_mask = True], [idx_acb = 2], [idx_bct = 3]. *)
Theorem scenario1_lev_decreasing (levs : list Float.float) :
  length levs = 5%nat -> strictly_decreasing levs = true ->
  at_col (cloud_base_top (single_column levs clw_scenario1) clw_thresh_default) 0
  = Some (2, 3, true).
Proof.
  intros Hlen Hdec.
  destruct levs as [|l0 [|l1 [|l2 [|l3 [|l4 [|l5 r]]]]]]; try discriminate.
  simpl in Hdec. unfold Float.gtb in Hdec.
  repeat (apply andb_true_iff in Hdec; destruct Hdec as [? Hdec]).
  rewrite (at_col_cloud_base_top _ _ 0 clw_scenario1).
  - assert (H21 : Float.ltb l2 l1 = true) by assumption.
    assert (H20 : Float.ltb l2 l0 = true)
      by (apply FloatFacts.ltb_trans with (y := l1); assumption).
    assert (H32 : Float.ltb l3 l2 = true) by assumption.
    assert (H42 : Float.ltb l4 l2 = true)
      by (apply FloatFacts.ltb_trans with (y := l3); assumption).
    assert (Hn2 : Float.is_nan l2 = false)
      by (eapply FloatFacts.ltb_not_nan_l; exact H21).
    assert (Hbct : col_bct_mask [l0; l1; l2; l3; l4] clw_thresh_default
                     clw_scenario1 = [1; 1; 1; 1; 0]).
    { change (col_bct_mask [l0; l1; l2; l3; l4] clw_thresh_default clw_scenario1)
        with [bct_cell l2 l0 false; bct_cell l2 l1 false; bct_cell l2 l2 true;
              bct_cell l2 l3 true; bct_cell l2 l4 false].
      rewrite (bct_cell_below l2 l0 false H20), (bct_cell_below l2 l1 false H21),
        (bct_cell_at l2 true Hn2), (bct_cell_above_cloudy l2 l3 H32),
        (bct_cell_above_clear l2 l4 H42).
      reflexivity. }
    unfold col_idx_bct, col_idx_act. cbn [single_column lev]. rewrite Hbct.
    reflexivity.
  - repeat constructor.
  - discriminate.
  - reflexivity.
Qed.

Lemma scenario1_lev_decreasing_witness :
  at_col (cloud_base_top (single_column levs_down clw_scenario1)
            clw_thresh_default) 0
  = Some (2, 3, true).
Proof.
  apply (scenario1_lev_decreasing levs_down); reflexivity.
Defined.

(** C2 fails as stated: the same column over the 'lev' coordinate
    values 0, 1, 2, 3, 4, which increase with the index (the
    specification's index-0-at-top reading), gives [idx_bct = 0], not 3. *)
Lemma scenario1_lev_increasing :
  at_col (cloud_base_top (single_column levs_index clw_scenario1)
            clw_thresh_default) 0 = Some (2, 0, true) /\
  at_col (cloud_base_top (single_column levs_index clw_scenario1)
            clw_thresh_default) 0 <> Some (2, 3, true).
Proof. split; [reflexivity | discriminate]. Qed.

(** C3.  For the single column CLW = [0, 0, 0, 0, 2e-5] with threshold
    1.0e-5, [cloud_base_top] returns [clt_mask = True] and [idx_acb = 4]
    but [idx_bct = 0], not 4, over decreasing as over increasing 'lev'
    coordinates; whatever the five coordinate values are, the returned
    [idx_bct] is at most 3. *)
Theorem scenario4_idx_bct :
  at_col (cloud_base_top (single_column levs_down clw_scenario4)
            clw_thresh_default) 0 = Some (4, 0, true) /\
  at_col (cloud_base_top (single_column levs_up clw_scenario4)
            clw_thresh_default) 0 = Some (4, 0, true) /\
  forall l0 l1 l2 l3 l4 : Float.float,
  exists b,
    at_col (cloud_base_top (single_column [l0; l1; l2; l3; l4] clw_scenario4)
              clw_thresh_default) 0 = Some (4, b, true) /\
    0 <= b <= 3.
Proof.
  split; [reflexivity|]. split; [reflexivity|].
  intros l0 l1 l2 l3 l4.
  exists (col_idx_bct [l0; l1; l2; l3; l4] clw_thresh_default clw_scenario4).
  split.
  - rewrite (at_col_cloud_base_top _ _ 0 clw_scenario4).
    + reflexivity.
    + repeat constructor.
    + discriminate.
    + reflexivity.
  - pose proof (col_idx_bct_bounds [l0; l1; l2; l3; l4] clw_thresh_default
                  clw_scenario4 eq_refl) as H.
    simpl in H. apply H. discriminate.
Qed.

(** ** [idx_acb] and the cloudy levels *)

Lemma first_max_b2z (b : bool) (r : list bool) :
  let i := fst (Np.first_max (Z.b2z b) (map Z.b2z r)) in
  let m := snd (Np.first_max (Z.b2z b) (map Z.b2z r)) in
  m = Z.b2z (existsb (fun x : bool => x) (b :: r)) /\
  (m = 1 -> nth i (b :: r) false = true /\
            forall j, (j < i)%nat -> nth j (b :: r) false = false) /\
  (m = 0 -> i = 0%nat).
Proof.
  revert b. induction r as [|y r IH]; intros b; cbv zeta in *.
  - simpl. rewrite orb_false_r. destruct b; simpl; repeat split; auto; try lia;
      try discriminate.
  - specialize (IH y). cbn [map Np.first_max].
    destruct (Np.first_max (Z.b2z y) (map Z.b2z r)) as [i m].
    cbn [fst snd] in IH. destruct IH as [Hm [H1 H0]].
    assert (Hr : m = 0 \/ m = 1)
      by (rewrite Hm; destruct (existsb _ (y :: r)); simpl; lia).
    destruct b.
    + replace (m <=? Z.b2z true) with true
        by (symmetry; apply Z.leb_le; simpl; lia).
      cbn [fst snd]. repeat split; try reflexivity; try lia.
    + destruct Hr as [-> | ->].
      * change (0 <=? Z.b2z false) with true. cbn iota. cbn [fst snd].
        split; [|split].
        -- change (existsb (fun x : bool => x) (false :: y :: r))
             with (existsb (fun x : bool => x) (y :: r)).
           now rewrite <- Hm.
        -- discriminate.
        -- reflexivity.
      * change (1 <=? Z.b2z false) with false. cbn iota. cbn [fst snd].
        split; [|split].
        -- change (existsb (fun x : bool => x) (false :: y :: r))
             with (existsb (fun x : bool => x) (y :: r)).
           now rewrite <- Hm.
        -- intros _. destruct (H1 eq_refl) as [Hi Hj]. split.
           ++ exact Hi.
           ++ intros [|j] Hlt; [reflexivity|]. cbn [nth]. apply Hj. lia.
        -- discriminate.
Qed.

Lemma nth_col_clw_mask (t : Float.float) (c : list Float.float) (j : nat) :
  nth j (col_clw_mask t c) false = Float.gtb (nth j c Float.nan) t.
Proof.
  revert j. induction c as [|x r IH]; intros j.
  - unfold Float.gtb. change (SFltb t) with (Float.ltb t).
    destruct j; simpl; now rewrite FloatFacts.ltb_nan_r.
  - destruct j; simpl; [now destruct (Float.gtb x t) | apply IH].
Qed.

(** Where some level exceeds the threshold, [idx_acb] is the smallest
    index of such a level. *)
Lemma idx_acb_first_cloudy_level (t : Float.float) (c : list Float.float) :
  (exists x, In x c /\ Float.gtb x t = true) ->
  let i := Z.to_nat (col_idx_acb t c) in
  Float.gtb (nth i c Float.nan) t = true /\
  forall j, (j < i)%nat -> Float.gtb (nth j c Float.nan) t = false.
Proof.
  intros [x [Hx Hg]] i.
  destruct c as [|x0 r]; [contradiction|].
  subst i. rewrite col_idx_acb_cons, Nat2Z.id.
  pose proof (first_max_b2z (if Float.gtb x0 t then true else false)
                (col_clw_mask t r)) as H.
  cbv zeta in H. destruct H as [Hm [H1 _]].
  assert (Hex : existsb (fun b : bool => b)
                  ((if Float.gtb x0 t then true else false) :: col_clw_mask t r)
                = true).
  { change ((if Float.gtb x0 t then true else false) :: col_clw_mask t r)
      with (col_clw_mask t (x0 :: r)).
    apply existsb_exists. exists true. split; [|reflexivity].
    unfold col_clw_mask. apply in_map_iff. exists x. now rewrite Hg. }
  rewrite Hex in Hm. destruct (H1 Hm) as [Hi Hj].
  pose proof (nth_col_clw_mask t (x0 :: r)) as Hnth.
  split.
  - rewrite <- Hnth. exact Hi.
  - intros j Hlt. rewrite <- Hnth. now apply Hj.
Qed.

(** C4.  The column CLW = [0, 0, 1e-5, 0, 0] with threshold 1.0e-5 has
    no level whose CLW exceeds the threshold, and [cloud_base_top]
    returns [clt_mask = True] for it: the value equal to the threshold
    is not below it. *)
Theorem clt_mask_true_without_cloud :
  let c := [Float.f0; Float.f0; Float.f1em5; Float.f0; Float.f0] in
  existsb (fun x => Float.gtb x clw_thresh_default) c = false /\
  col_clw_mask clw_thresh_default c = [false; false; false; false; false] /\
  exists a b,
    at_col (cloud_base_top (single_column levs_down c) clw_thresh_default) 0
    = Some (a, b, true).
Proof.
  split; [reflexivity|]. split; [reflexivity|].
  exists 0, 0. reflexivity.
Qed.

(** C5.  For the column CLW = [nan, 0, 0], and for the column
    CLW = [0, 0, 1e-5, 0, 0], with threshold 1.0e-5, [cloud_base_top]
    returns [clt_mask = True] and [idx_acb = 0] although the CLW at
    index 0, like that of every level, does not exceed the threshold. *)
Theorem idx_acb_zero_without_cloud :
  let c1 := [Float.nan; Float.f0; Float.f0] in
  let c2 := [Float.f0; Float.f0; Float.f1em5; Float.f0; Float.f0] in
  (exists b,
     at_col (cloud_base_top (single_column [Float.f30; Float.f20; Float.f10] c1)
               clw_thresh_default) 0 = Some (0, b, true)) /\
  (forall j, Float.gtb (nth j c1 Float.nan) clw_thresh_default = false) /\
  (exists b,
     at_col (cloud_base_top (single_column levs_down c2) clw_thresh_default) 0
     = Some (0, b, true)) /\
  (forall j, Float.gtb (nth j c2 Float.nan) clw_thresh_default = false).
Proof.
  split; [exists 0; reflexivity|].
  split; [intros [|[|[|[|j]]]]; reflexivity|].
  split; [exists 0; reflexivity|].
  intros [|[|[|[|[|[|j]]]]]]; reflexivity.
Qed.

(** ** Further properties of [cloud_base_top] *)

(** X1.  On a well-formed array [cloud_base_top] raises (the
    empty-sequence ValueError of argmax) exactly when the 'lev' axis is
    empty; otherwise it returns. *)
Theorem cloud_base_top_raises_iff_empty (clw : DataArray Float.float)
  (t : Float.float) :
  well_formed clw ->
  (cloud_base_top clw t = Raise EmptySequence <-> lev clw = []) /\
  ((exists r, cloud_base_top clw t = Ok r) <-> lev clw <> []).
Proof.
  intros Hwf. split; split.
  - intros H. destruct (lev clw) as [|l0 ls] eqn:El; [reflexivity|].
    rewrite cloud_base_top_by_column in H; [discriminate | exact Hwf |].
    rewrite El. discriminate.
  - apply cloud_base_top_empty.
  - intros [r Hr] E. rewrite cloud_base_top_empty in Hr by exact E. discriminate.
  - intros Hne. eexists. now apply cloud_base_top_by_column.
Qed.

Lemma cloud_base_top_raises_iff_empty_witness :
  (cloud_base_top (mkDataArray [] [[]; []]) clw_thresh_default
   = Raise EmptySequence <-> @nil Float.float = []) /\
  ((exists r, cloud_base_top (mkDataArray [] [[]; []]) clw_thresh_default = Ok r)
   <-> @nil Float.float <> []).
Proof.
  apply (cloud_base_top_raises_iff_empty (mkDataArray [] [[]; []])
           clw_thresh_default).
  repeat constructor.
Defined.

(** X2.  When [cloud_base_top] returns, each of [idx_acb], [idx_bct]
    and [clt_mask] has exactly one entry per column of [clw]. *)
Theorem cloud_base_top_output_shape (clw : DataArray Float.float)
  (t : Float.float) (idx_acb idx_bct : list Z) (clt_mask : list bool) :
  well_formed clw ->
  cloud_base_top clw t = Ok (idx_acb, idx_bct, clt_mask) ->
  length idx_acb = length (columns clw) /\
  length idx_bct = length (columns clw) /\
  length clt_mask = length (columns clw).
Proof.
  intros Hwf H.
  destruct (lev clw) as [|l0 ls] eqn:El.
  - rewrite cloud_base_top_empty in H by exact El. discriminate.
  - rewrite cloud_base_top_by_column in H;
      [| exact Hwf | rewrite El; discriminate].
    injection H as <- <- <-. now rewrite !length_map.
Qed.

Lemma cloud_base_top_output_shape_witness :
  length [2; 0] = 2%nat /\ length [3; 0] = 2%nat /\
  length [true; false] = 2%nat.
Proof.
  apply (cloud_base_top_output_shape
           (mkDataArray levs_down
              [clw_scenario1; [Float.f0; Float.f0; Float.f0; Float.f0; Float.f0]])
           clw_thresh_default [2; 0] [3; 0] [true; false]).
  - repeat constructor.
  - reflexivity.
Defined.

(** X3.  The returned [clt_mask] of a column is False exactly when every
    level of the column is strictly below the threshold; hence it is
    True as soon as some level exceeds the threshold. *)
Theorem clt_mask_false_iff_all_below (clw : DataArray Float.float)
  (t : Float.float) (k : nat) (c : list Float.float) :
  well_formed clw -> (0 < nlev clw)%nat ->
  nth_error (columns clw) k = Some c ->
  exists a b m,
    at_col (cloud_base_top clw t) k = Some (a, b, m) /\
    (m = false <-> forall x, In x c -> Float.ltb x t = true) /\
    ((exists x, In x c /\ Float.gtb x t = true) -> m = true).
Proof.
  intros Hwf Hn Hk. unfold nlev in Hn.
  assert (Hne : lev clw <> []) by now apply nonempty_length.
  exists (col_idx_acb t c), (col_idx_bct (lev clw) t c), (col_clt_mask t c).
  split; [now apply at_col_cloud_base_top|]. split.
  - apply col_clt_mask_false.
  - intros [x [Hx Hg]]. apply col_clt_mask_true. exists x. split; [exact Hx|].
    unfold Float.gtb in Hg. change (SFltb t x) with (Float.ltb t x) in Hg.
    now apply FloatFacts.ltb_asym.
Qed.

Lemma clt_mask_false_iff_all_below_witness :
  exists a b m,
    at_col (cloud_base_top (single_column levs_down clw_scenario1)
              clw_thresh_default) 0 = Some (a, b, m) /\
    (m = false <->
     forall x, In x clw_scenario1 -> Float.ltb x clw_thresh_default = true) /\
    ((exists x, In x clw_scenario1 /\ Float.gtb x clw_thresh_default = true) ->
     m = true).
Proof.
  apply (clt_mask_false_iff_all_below (single_column levs_down clw_scenario1)
           clw_thresh_default 0 clw_scenario1).
  - repeat constructor.
  - unfold nlev. simpl. lia.
  - reflexivity.
Defined.

(** X4.  In a column where some level exceeds the threshold,
    [cloud_base_top] returns [clt_mask = True] and an [idx_acb] that is
    the smallest index of a level exceeding the threshold. *)
Theorem idx_acb_is_first_level_above_threshold (clw : DataArray Float.float)
  (t : Float.float) (k : nat) (c : list Float.float) :
  well_formed clw -> nth_error (columns clw) k = Some c ->
  (exists x, In x c /\ Float.gtb x t = true) ->
  exists a b,
    at_col (cloud_base_top clw t) k = Some (a, b, true) /\
    0 <= a < Z.of_nat (length c) /\
    Float.gtb (nth (Z.to_nat a) c Float.nan) t = true /\
    forall j, (j < Z.to_nat a)%nat -> Float.gtb (nth j c Float.nan) t = false.
Proof.
  intros Hwf Hk Hex.
  assert (Hlen : length c = length (lev clw)).
  { apply well_formed_column; [exact Hwf|]. eapply nth_error_In; eassumption. }
  assert (Hc : c <> []) by (destruct Hex as [x [Hx _]]; destruct c; [contradiction | discriminate]).
  assert (Hne : lev clw <> []).
  { apply nonempty_length. rewrite <- Hlen. now apply nonempty_length. }
  exists (col_idx_acb t c), (col_idx_bct (lev clw) t c).
  rewrite (at_col_cloud_base_top clw t k c Hwf Hne Hk).
  split; [|split].
  - do 2 f_equal. destruct Hex as [x [Hx Hg]].
    apply col_clt_mask_true. exists x. split; [exact Hx|].
    unfold Float.gtb in Hg. change (SFltb t x) with (Float.ltb t x) in Hg.
    now apply FloatFacts.ltb_asym.
  - now apply col_idx_acb_bounds.
  - now apply idx_acb_first_cloudy_level.
Qed.

Lemma idx_acb_is_first_level_above_threshold_witness :
  exists a b,
    at_col (cloud_base_top (single_column levs_down clw_scenario1)
              clw_thresh_default) 0 = Some (a, b, true) /\
    0 <= a < 5 /\
    Float.gtb (nth (Z.to_nat a) clw_scenario1 Float.nan) clw_thresh_default = true /\
    forall j, (j < Z.to_nat a)%nat ->
      Float.gtb (nth j clw_scenario1 Float.nan) clw_thresh_default = false.
Proof.
  apply (idx_acb_is_first_level_above_threshold
           (single_column levs_down clw_scenario1) clw_thresh_default 0
           clw_scenario1).
  - repeat constructor.
  - reflexivity.
  - exists Float.f2em5. split; [simpl; auto | reflexivity].
Defined.

(** ** Cloud top over a decreasing 'lev' coordinate *)

Lemma first_min_le (x : Z) (l : list Z) (z : Z) :
  In z (x :: l) -> snd (Np.first_min x l) <= z.
Proof.
  revert x z. induction l as [|y r IH]; intros x z Hz.
  - destruct Hz as [<- | []]. simpl. lia.
  - cbn [Np.first_min]. pose proof (IH y) as IHy.
    destruct (Np.first_min y r) as [i m]. cbn [snd] in IHy.
    destruct (Z.leb_spec x m) as [Hle | Hgt]; cbn [snd].
    + destruct Hz as [<- | Hz]; [lia|]. specialize (IHy z Hz). lia.
    + destruct Hz as [<- | Hz]; [lia|]. now apply IHy.
Qed.

Lemma argmin_first_zero (l : list Z) (j : nat) :
  (j < length l)%nat ->
  (forall y, In y l -> 0 <= y) ->
  nth j l 0 = 0 ->
  (forall i, (i < j)%nat -> 0 < nth i l 0) ->
  Np.argmin l = Ok (Z.of_nat j).
Proof.
  revert j. induction l as [|x r IH]; intros j Hj Hnn Hz Hpos.
  - simpl in Hj. lia.
  - destruct j as [|j].
    + simpl in Hz. subst x. simpl. rewrite first_min_head; [reflexivity|].
      intros y Hy. apply Hnn. now right.
    + assert (Hx : 0 < x) by (apply (Hpos 0%nat); lia).
      destruct r as [|y r']; [simpl in Hj; lia|].
      assert (IHr : Np.argmin (y :: r') = Ok (Z.of_nat j)).
      { apply IH.
        - simpl in *. lia.
        - intros z Hin. apply Hnn. now right.
        - exact Hz.
        - intros i Hi. apply (Hpos (S i)). lia. }
      simpl in IHr. injection IHr as IHr. apply Nat2Z.inj in IHr.
      assert (Hm : snd (Np.first_min y r') = 0).
      { assert (Hin : In (nth j (y :: r') 0) (y :: r'))
          by (apply nth_In; simpl in *; lia).
        pose proof (first_min_le y r' _ Hin) as Hle.
        change (nth (S j) (x :: y :: r') 0) with (nth j (y :: r') 0) in Hz.
        rewrite Hz in Hle.
        pose proof (Hnn _ (or_intror (first_min_In y r'))). lia. }
      cbn [Np.argmin Np.first_min].
      destruct (Np.first_min y r') as [i m]. cbn [fst snd] in *. subst i m.
      destruct (Z.leb_spec x 0); [lia|]. reflexivity.
Qed.

Lemma zip_with_nth {A B C : Type} (f : A -> B -> C) (la : list A) (lb : list B)
  (i : nat) (da : A) (db : B) (dc : C) :
  (i < length la)%nat -> (i < length lb)%nat ->
  nth i (zip_with f la lb) dc = f (nth i la da) (nth i lb db).
Proof.
  revert lb i. induction la as [|a r IH]; intros [|b rb] [|i] Ha Hb;
    simpl in *; try lia; [reflexivity|].
  apply IH; lia.
Qed.

Lemma strictly_decreasing_head (l0 : Float.float) (ls : list Float.float) :
  strictly_decreasing (l0 :: ls) = true ->
  forall y, In y ls -> Float.ltb y l0 = true.
Proof.
  revert l0. induction ls as [|l1 r IH]; intros l0 H y Hy; [contradiction|].
  simpl in H. apply andb_true_iff in H. destruct H as [H01 Hr].
  unfold Float.gtb in H01. change (SFltb l1 l0) with (Float.ltb l1 l0) in H01.
  destruct Hy as [<- | Hy]; [exact H01|].
  apply FloatFacts.ltb_trans with (y := l1); [|exact H01].
  now apply IH.
Qed.

Lemma strictly_decreasing_tail (l0 : Float.float) (ls : list Float.float) :
  strictly_decreasing (l0 :: ls) = true -> strictly_decreasing ls = true.
Proof.
  destruct ls as [|l1 r]; [reflexivity|]. intros H.
  simpl in H. apply andb_true_iff in H. apply H.
Qed.

Lemma strictly_decreasing_nth (levs : list Float.float) (i j : nat) :
  strictly_decreasing levs = true -> (i < j)%nat -> (j < length levs)%nat ->
  Float.ltb (nth j levs Float.nan) (nth i levs Float.nan) = true.
Proof.
  revert i j. induction levs as [|l0 ls IH]; intros i j Hdec Hij Hj.
  - simpl in Hj. lia.
  - destruct j as [|j]; [lia|]. simpl in Hj. destruct i as [|i].
    + cbn [nth]. apply (strictly_decreasing_head l0 ls Hdec).
      apply nth_In. lia.
    + cbn [nth]. apply IH; [now apply strictly_decreasing_tail in Hdec | lia | lia].
Qed.

Lemma ltb_not_nan_r (x y : Float.float) :
  Float.ltb x y = true -> Float.is_nan y = false.
Proof.
  intros H. destruct y; try reflexivity.
  change S754_nan with Float.nan in H. rewrite FloatFacts.ltb_nan_r in H.
  discriminate.
Qed.

Lemma bct_cell_above (l_acb l : Float.float) (m : bool) :
  Float.ltb l l_acb = true -> bct_cell l_acb l m = Z.b2z m.
Proof.
  intros H. destruct m.
  - now apply bct_cell_above_cloudy.
  - now apply bct_cell_above_clear.
Qed.

Lemma col_idx_acb_unique (t : Float.float) (c : list Float.float) (a : nat) :
  (a < length c)%nat ->
  Float.gtb (nth a c Float.nan) t = true ->
  (forall i, (i < a)%nat -> Float.gtb (nth i c Float.nan) t = false) ->
  col_idx_acb t c = Z.of_nat a.
Proof.
  intros Ha Hg Hbefore.
  assert (Hex : exists x, In x c /\ Float.gtb x t = true)
    by (exists (nth a c Float.nan); split; [now apply nth_In | exact Hg]).
  destruct (idx_acb_first_cloudy_level t c Hex) as [H1 H2].
  assert (Hc : c <> []) by (destruct c; [simpl in Ha; lia | discriminate]).
  pose proof (col_idx_acb_bounds t c Hc) as Hb.
  destruct (Nat.lt_trichotomy (Z.to_nat (col_idx_acb t c)) a) as [Hlt | [Heq | Hgt]].
  - rewrite (Hbefore _ Hlt) in H1. discriminate.
  - lia.
  - rewrite (H2 _ Hgt) in Hg. discriminate.
Qed.

Lemma bct_mask_decreasing (levs : list Float.float) (t : Float.float)
  (c : list Float.float) (a : nat) :
  length c = length levs -> strictly_decreasing levs = true ->
  col_clt_mask t c = true -> col_idx_acb t c = Z.of_nat a ->
  (a < length levs)%nat ->
  Float.is_nan (nth a levs Float.nan) = false ->
  forall i, (i < length levs)%nat ->
    nth i (col_bct_mask levs t c) 0
    = if (i <=? a)%nat then 1 else Z.b2z (nth i (col_clw_mask t c) false).
Proof.
  intros Hlen Hdec Hclt Hacb Ha Hnan i Hi.
  unfold col_bct_mask, col_lev_acb. rewrite Hclt, Hacb, Nat2Z.id.
  rewrite (zip_with_nth _ levs (col_clw_mask t c) i Float.nan false 0);
    [| exact Hi | unfold col_clw_mask; rewrite length_map; lia].
  destruct (Nat.leb_spec i a) as [Hle | Hgt].
  - destruct (Nat.eq_dec i a) as [-> | Hneq].
    + now apply bct_cell_at.
    + apply bct_cell_below. apply strictly_decreasing_nth; [exact Hdec | lia | lia].
  - apply bct_cell_above. now apply strictly_decreasing_nth.
Qed.

Lemma col_bct_mask_nonneg (levs : list Float.float) (t : Float.float)
  (c : list Float.float) (y : Z) :
  In y (col_bct_mask levs t c) -> 0 <= y.
Proof.
  intros Hy. unfold col_bct_mask in Hy. apply zip_with_In in Hy.
  destruct Hy as [l [m [_ [_ ->]]]]. apply bct_cell_nonneg.
Qed.

Lemma col_clt_mask_of_cloudy (t : Float.float) (c : list Float.float) (a : nat) :
  (a < length c)%nat -> Float.gtb (nth a c Float.nan) t = true ->
  col_clt_mask t c = true.
Proof.
  intros Ha Hg. apply col_clt_mask_true. exists (nth a c Float.nan).
  split; [now apply nth_In|].
  unfold Float.gtb in Hg.
  change (SFltb t (nth a c Float.nan)) with (Float.ltb t (nth a c Float.nan)) in Hg.
  now apply FloatFacts.ltb_asym.
Qed.

(** X5.  Over 'lev' coordinate values that strictly decrease with the
    index: if a column's first level exceeding the threshold is [a], all
    levels [a .. j-1] exceed it and level [j] does not, then
    [cloud_base_top] returns [idx_acb = a], [idx_bct = j - 1] and
    [clt_mask = True] for that column: the last level of the cloud layer
    that starts at the cloud base. *)
Theorem cloud_layer_over_decreasing_lev (clw : DataArray Float.float)
  (t : Float.float) (k : nat) (c : list Float.float) (a j : nat) :
  well_formed clw -> strictly_decreasing (lev clw) = true ->
  nth_error (columns clw) k = Some c ->
  (a < j)%nat -> (j < length c)%nat ->
  (forall i, (i < a)%nat -> Float.gtb (nth i c Float.nan) t = false) ->
  (forall i, (a <= i < j)%nat -> Float.gtb (nth i c Float.nan) t = true) ->
  Float.gtb (nth j c Float.nan) t = false ->
  at_col (cloud_base_top clw t) k = Some (Z.of_nat a, Z.of_nat j - 1, true).
Proof.
  intros Hwf Hdec Hk Haj Hj Hbefore Hcloud Hclear.
  assert (Hlen : length c = length (lev clw)).
  { apply well_formed_column; [exact Hwf|]. eapply nth_error_In; eassumption. }
  assert (Hne : lev clw <> []) by (apply nonempty_length; lia).
  assert (Hga : Float.gtb (nth a c Float.nan) t = true) by (apply Hcloud; lia).
  assert (Hacb : col_idx_acb t c = Z.of_nat a)
    by (apply col_idx_acb_unique; [lia | exact Hga | exact Hbefore]).
  assert (Hclt : col_clt_mask t c = true)
    by (apply (col_clt_mask_of_cloudy t c a); [lia | exact Hga]).
  assert (Hnan : Float.is_nan (nth a (lev clw) Float.nan) = false).
  { apply (ltb_not_nan_r (nth j (lev clw) Float.nan)).
    apply strictly_decreasing_nth; [exact Hdec | exact Haj | lia]. }
  pose proof (bct_mask_decreasing (lev clw) t c a Hlen Hdec Hclt Hacb
                ltac:(lia) Hnan) as Hcell.
  assert (Hact : Np.argmin (col_bct_mask (lev clw) t c) = Ok (Z.of_nat j)).
  { apply argmin_first_zero.
    - rewrite col_bct_mask_length by exact Hlen. lia.
    - apply col_bct_mask_nonneg.
    - rewrite Hcell by lia.
      destruct (Nat.leb_spec j a); [lia|].
      now rewrite nth_col_clw_mask, Hclear.
    - intros i Hi. rewrite Hcell by lia.
      destruct (Nat.leb_spec i a); [lia|].
      rewrite nth_col_clw_mask, Hcloud by lia. simpl. lia. }
  rewrite (at_col_cloud_base_top clw t k c Hwf Hne Hk).
  unfold col_idx_bct, col_idx_act, Np.maximum. rewrite Hact, Hacb, Hclt.
  do 2 f_equal. f_equal. lia.
Qed.

Lemma cloud_layer_over_decreasing_lev_witness :
  at_col (cloud_base_top (single_column levs_down clw_scenario1)
            clw_thresh_default) 0
  = Some (Z.of_nat 2, Z.of_nat 4 - 1, true).
Proof.
  apply (cloud_layer_over_decreasing_lev
           (single_column levs_down clw_scenario1) clw_thresh_default 0
           clw_scenario1 2 4).
  - repeat constructor.
  - reflexivity.
  - reflexivity.
  - lia.
  - simpl. lia.
  - intros [|[|i]] Hi; try reflexivity; lia.
  - intros [|[|[|[|i]]]] Hi; try reflexivity; lia.
  - reflexivity.
Defined.

(** X6.  Over 'lev' coordinate values that strictly decrease with the
    index: if a column's first level exceeding the threshold is [a] and
    every level from [a] to the last one exceeds it (the cloud reaches
    the end of the level axis), then [cloud_base_top] returns
    [idx_bct = 0] for that column, with [idx_acb = a] and
    [clt_mask = True]. *)
Theorem cloud_reaching_last_level (clw : DataArray Float.float)
  (t : Float.float) (k : nat) (c : list Float.float) (a : nat) :
  well_formed clw -> strictly_decreasing (lev clw) = true ->
  nth_error (columns clw) k = Some c ->
  (a < length c)%nat ->
  (forall i, (i < a)%nat -> Float.gtb (nth i c Float.nan) t = false) ->
  (forall i, (a <= i < length c)%nat -> Float.gtb (nth i c Float.nan) t = true) ->
  at_col (cloud_base_top clw t) k = Some (Z.of_nat a, 0, true).
Proof.
  intros Hwf Hdec Hk Ha Hbefore Hcloud.
  assert (Hlen : length c = length (lev clw)).
  { apply well_formed_column; [exact Hwf|]. eapply nth_error_In; eassumption. }
  assert (Hne : lev clw <> []) by (apply nonempty_length; lia).
  assert (Hga : Float.gtb (nth a c Float.nan) t = true) by (apply Hcloud; lia).
  assert (Hacb : col_idx_acb t c = Z.of_nat a)
    by (apply col_idx_acb_unique; [lia | exact Hga | exact Hbefore]).
  assert (Hclt : col_clt_mask t c = true)
    by (apply (col_clt_mask_of_cloudy t c a); [lia | exact Hga]).
  rewrite (at_col_cloud_base_top clw t k c Hwf Hne Hk), Hacb, Hclt.
  do 2 f_equal. f_equal. unfold col_idx_bct, Np.maximum.
  pose proof (col_idx_act_bounds (lev clw) t c Hlen Hne) as Hb.
  destruct (Nat.eq_dec (length (lev clw)) 1) as [H1 | H1]; [lia|].
  assert (Hnan : Float.is_nan (nth a (lev clw) Float.nan) = false).
  { destruct a as [|a'].
    - apply (ltb_not_nan_r (nth 1 (lev clw) Float.nan)).
      apply strictly_decreasing_nth; [exact Hdec | lia | lia].
    - apply (FloatFacts.ltb_not_nan_l _ (nth 0 (lev clw) Float.nan)).
      apply strictly_decreasing_nth; [exact Hdec | lia | lia]. }
  pose proof (bct_mask_decreasing (lev clw) t c a Hlen Hdec Hclt Hacb
                ltac:(lia) Hnan) as Hcell.
  assert (Hones : forall y, In y (col_bct_mask (lev clw) t c) -> y = 1).
  { intros y Hy. apply (In_nth _ _ 0) in Hy. destruct Hy as [i [Hi <-]].
    rewrite col_bct_mask_length in Hi by exact Hlen.
    rewrite Hcell by exact Hi.
    destruct (Nat.leb_spec i a); [reflexivity|].
    rewrite nth_col_clw_mask, Hcloud by lia. reflexivity. }
  unfold col_idx_act.
  destruct (col_bct_mask (lev clw) t c) as [|v vs]; [reflexivity|].
  rewrite argmin_head_least; [reflexivity|].
  intros y Hy.
  rewrite (Hones v (or_introl eq_refl)), (Hones y (or_intror Hy)). lia.
Qed.

Lemma cloud_reaching_last_level_witness :
  at_col (cloud_base_top (single_column levs_down clw_scenario4)
            clw_thresh_default) 0
  = Some (Z.of_nat 4, 0, true).
Proof.
  apply (cloud_reaching_last_level
           (single_column levs_down clw_scenario4) clw_thresh_default 0
           clw_scenario4 4).
  - repeat constructor.
  - reflexivity.
  - reflexivity.
  - simpl. lia.
  - intros [|[|[|[|i]]]] Hi; try reflexivity; lia.
  - intros [|[|[|[|[|i]]]]] Hi; try reflexivity; simpl in Hi; lia.
Defined.

(** ** Bounds, locality and thresholds *)

(** X7.  On a level axis of at least two levels the returned [idx_bct]
    is at most [nlev - 2]: [cloud_base_top] never reports the last
    level as the level below cloud top. *)
Theorem idx_bct_never_last_level (clw : DataArray Float.float)
  (t : Float.float) (k : nat) (c : list Float.float) :
  well_formed clw -> (2 <= nlev clw)%nat ->
  nth_error (columns clw) k = Some c ->
  exists a b m,
    at_col (cloud_base_top clw t) k = Some (a, b, m) /\
    0 <= b <= Z.of_nat (nlev clw) - 2.
Proof.
  intros Hwf Hn Hk. unfold nlev in *.
  assert (Hne : lev clw <> []) by (apply nonempty_length; lia).
  assert (Hlen : length c = length (lev clw)).
  { apply well_formed_column; [exact Hwf|]. eapply nth_error_In; eassumption. }
  exists (col_idx_acb t c), (col_idx_bct (lev clw) t c), (col_clt_mask t c).
  split; [now apply at_col_cloud_base_top|].
  pose proof (col_idx_bct_bounds (lev clw) t c Hlen Hne). lia.
Qed.

Lemma idx_bct_never_last_level_witness :
  exists a b m,
    at_col (cloud_base_top (single_column levs_down clw_scenario4)
              clw_thresh_default) 0 = Some (a, b, m) /\
    0 <= b <= 5 - 2.
Proof.
  apply (idx_bct_never_last_level (single_column levs_down clw_scenario4)
           clw_thresh_default 0 clw_scenario4).
  - repeat constructor.
  - unfold nlev. simpl. lia.
  - reflexivity.
Defined.

(** X8.  The outputs of [cloud_base_top] at a column depend only on the
    'lev' coordinate and on that column: two arrays with the same 'lev'
    coordinate that hold the same column (at any positions) get the same
    [idx_acb], [idx_bct] and [clt_mask] there, whatever the other
    columns hold. *)
Theorem cloud_base_top_column_local (clw clw' : DataArray Float.float)
  (t : Float.float) (k k' : nat) (c : list Float.float) :
  well_formed clw -> well_formed clw' ->
  lev clw = lev clw' -> (0 < nlev clw)%nat ->
  nth_error (columns clw) k = Some c ->
  nth_error (columns clw') k' = Some c ->
  at_col (cloud_base_top clw t) k = at_col (cloud_base_top clw' t) k' /\
  at_col (cloud_base_top clw t) k <> None.
Proof.
  intros Hwf Hwf' Hlev Hn Hk Hk'. unfold nlev in Hn.
  assert (Hne : lev clw <> []) by now apply nonempty_length.
  assert (Hne' : lev clw' <> []) by (rewrite <- Hlev; exact Hne).
  rewrite (at_col_cloud_base_top clw t k c Hwf Hne Hk).
  rewrite (at_col_cloud_base_top clw' t k' c Hwf' Hne' Hk').
  rewrite Hlev. split; [reflexivity | discriminate].
Qed.

Lemma cloud_base_top_column_local_witness :
  at_col (cloud_base_top (single_column levs_down clw_scenario1)
            clw_thresh_default) 0
  = at_col (cloud_base_top
              (mkDataArray levs_down [clw_scenario4; clw_scenario1])
              clw_thresh_default) 1 /\
  at_col (cloud_base_top (single_column levs_down clw_scenario1)
            clw_thresh_default) 0 <> None.
Proof.
  apply (cloud_base_top_column_local
           (single_column levs_down clw_scenario1)
           (mkDataArray levs_down [clw_scenario4; clw_scenario1])
           clw_thresh_default 0 1 clw_scenario1).
  - repeat constructor.
  - repeat constructor.
  - reflexivity.
  - unfold nlev. simpl. lia.
  - reflexivity.
  - reflexivity.
Defined.

(** X9.  [idx_acb] and [clt_mask] do not depend on the values of the
    'lev' coordinate: two arrays holding the same column over level axes
    of the same size get the same [idx_acb] and [clt_mask] for it (only
    [idx_bct] reads the coordinate values). *)
Theorem idx_acb_clt_mask_ignore_lev_values (clw clw' : DataArray Float.float)
  (t : Float.float) (k : nat) (c : list Float.float) :
  well_formed clw -> well_formed clw' -> (0 < nlev clw)%nat ->
  nth_error (columns clw) k = Some c ->
  nth_error (columns clw') k = Some c ->
  exists a b b' m,
    at_col (cloud_base_top clw t) k = Some (a, b, m) /\
    at_col (cloud_base_top clw' t) k = Some (a, b', m).
Proof.
  intros Hwf Hwf' Hn Hk Hk'. unfold nlev in Hn.
  assert (Hne : lev clw <> []) by now apply nonempty_length.
  assert (Hne' : lev clw' <> []).
  { apply nonempty_length.
    rewrite <- (well_formed_column clw' c Hwf' (nth_error_In _ _ Hk')).
    rewrite (well_formed_column clw c Hwf (nth_error_In _ _ Hk)). exact Hn. }
  exists (col_idx_acb t c), (col_idx_bct (lev clw) t c),
         (col_idx_bct (lev clw') t c), (col_clt_mask t c).
  split; now apply at_col_cloud_base_top.
Qed.

Lemma idx_acb_clt_mask_ignore_lev_values_witness :
  exists a b b' m,
    at_col (cloud_base_top (single_column levs_down clw_scenario1)
              clw_thresh_default) 0 = Some (a, b, m) /\
    at_col (cloud_base_top (single_column levs_up clw_scenario1)
              clw_thresh_default) 0 = Some (a, b', m).
Proof.
  apply (idx_acb_clt_mask_ignore_lev_values
           (single_column levs_down clw_scenario1)
           (single_column levs_up clw_scenario1)
           clw_thresh_default 0 clw_scenario1).
  - repeat constructor.
  - repeat constructor.
  - unfold nlev. simpl. lia.
  - reflexivity.
  - reflexivity.
Defined.

Lemma idx_acb_is_first_level_above_threshold_aux (clw : DataArray Float.float)
  (t : Float.float) (k : nat) (c : list Float.float) :
  well_formed clw -> nth_error (columns clw) k = Some c ->
  (exists x, In x c /\ Float.gtb x t = true) ->
  at_col (cloud_base_top clw t) k
  = Some (col_idx_acb t c, col_idx_bct (lev clw) t c, true) /\
  0 <= col_idx_acb t c < Z.of_nat (length c) /\
  Float.gtb (nth (Z.to_nat (col_idx_acb t c)) c Float.nan) t = true /\
  forall j, (j < Z.to_nat (col_idx_acb t c))%nat ->
    Float.gtb (nth j c Float.nan) t = false.
Proof.
  intros Hwf Hk Hex.
  assert (Hlen : length c = length (lev clw)).
  { apply well_formed_column; [exact Hwf|]. eapply nth_error_In; eassumption. }
  assert (Hc : c <> [])
    by (destruct Hex as [x [Hx _]]; destruct c; [contradiction | discriminate]).
  assert (Hne : lev clw <> []).
  { apply nonempty_length. rewrite <- Hlen. now apply nonempty_length. }
  rewrite (at_col_cloud_base_top clw t k c Hwf Hne Hk).
  split; [|split].
  - do 2 f_equal. destruct Hex as [x [Hx Hg]].
    apply col_clt_mask_true. exists x. split; [exact Hx|].
    unfold Float.gtb in Hg. change (SFltb t x) with (Float.ltb t x) in Hg.
    now apply FloatFacts.ltb_asym.
  - now apply col_idx_acb_bounds.
  - now apply idx_acb_first_cloudy_level.
Qed.

Lemma leb_ltb_trans (x y z : Float.float) :
  Float.leb x y = true -> Float.ltb y z = true -> Float.ltb x z = true.
Proof. intros H1 H2. FloatFacts.float_cases. Qed.

(** X10.  Raising the threshold never moves the cloud base to a smaller
    index: if [t1 <= t2] and some level of the column exceeds [t2], the
    column is cloudy for both thresholds and [idx_acb] for [t1] is at
    most [idx_acb] for [t2]. *)
Theorem idx_acb_threshold_monotone (clw : DataArray Float.float)
  (t1 t2 : Float.float) (k : nat) (c : list Float.float) :
  well_formed clw -> Float.leb t1 t2 = true ->
  nth_error (columns clw) k = Some c ->
  (exists x, In x c /\ Float.gtb x t2 = true) ->
  exists a1 b1 a2 b2,
    at_col (cloud_base_top clw t1) k = Some (a1, b1, true) /\
    at_col (cloud_base_top clw t2) k = Some (a2, b2, true) /\
    a1 <= a2.
Proof.
  intros Hwf Hle Hk Hex2.
  assert (Hup : forall x, Float.gtb x t2 = true -> Float.gtb x t1 = true).
  { intros x Hx. unfold Float.gtb in *.
    change (SFltb t2 x) with (Float.ltb t2 x) in Hx.
    change (SFltb t1 x) with (Float.ltb t1 x).
    now apply leb_ltb_trans with (y := t2). }
  assert (Hex1 : exists x, In x c /\ Float.gtb x t1 = true).
  { destruct Hex2 as [x [Hx Hg]]. exists x. split; [exact Hx | now apply Hup]. }
  destruct (idx_acb_is_first_level_above_threshold_aux clw t1 k c Hwf Hk Hex1)
    as [Hat1 [Hb1 [_ Hbefore1]]].
  destruct (idx_acb_is_first_level_above_threshold_aux clw t2 k c Hwf Hk Hex2)
    as [Hat2 [Hb2 [Hg2 _]]].
  exists (col_idx_acb t1 c), (col_idx_bct (lev clw) t1 c),
         (col_idx_acb t2 c), (col_idx_bct (lev clw) t2 c).
  split; [exact Hat1|]. split; [exact Hat2|].
  destruct (Z.le_gt_cases (col_idx_acb t1 c) (col_idx_acb t2 c)) as [H | H];
    [exact H|].
  assert (Hlt : (Z.to_nat (col_idx_acb t2 c) < Z.to_nat (col_idx_acb t1 c))%nat)
    by lia.
  pose proof (Hup _ Hg2) as Hg1. rewrite (Hbefore1 _ Hlt) in Hg1. discriminate.
Qed.

Lemma idx_acb_threshold_monotone_witness :
  exists a1 b1 a2 b2,
    at_col (cloud_base_top (single_column levs_down clw_scenario1)
              Float.f1em5) 0 = Some (a1, b1, true) /\
    at_col (cloud_base_top (single_column levs_down clw_scenario1)
              Float.f2em5) 0 = Some (a2, b2, true) /\
    a1 <= a2.
Proof.
  apply (idx_acb_threshold_monotone (single_column levs_down clw_scenario1)
           Float.f1em5 Float.f2em5 0 clw_scenario1).
  - repeat constructor.
  - reflexivity.
  - reflexivity.
  - exists Float.f3em5. split; [simpl; auto | reflexivity].
Defined.

(** X11.  With a NaN threshold every column of a non-empty level axis is
    reported cloudy with [idx_acb = 0]: no comparison against NaN holds,
    so no level exceeds the threshold and no level is below it. *)
Theorem nan_threshold_marks_every_column (clw : DataArray Float.float)
  (k : nat) (c : list Float.float) :
  well_formed clw -> (0 < nlev clw)%nat ->
  nth_error (columns clw) k = Some c ->
  exists b, at_col (cloud_base_top clw Float.nan) k = Some (0, b, true).
Proof.
  intros Hwf Hn Hk. unfold nlev in Hn.
  assert (Hne : lev clw <> []) by now apply nonempty_length.
  assert (Hlen : length c = length (lev clw)).
  { apply well_formed_column; [exact Hwf|]. eapply nth_error_In; eassumption. }
  exists (col_idx_bct (lev clw) Float.nan c).
  rewrite (at_col_cloud_base_top clw Float.nan k c Hwf Hne Hk).
  rewrite col_idx_acb_no_cloud by (intros x _; apply FloatFacts.ltb_nan_l).
  do 2 f_equal. apply col_clt_mask_true.
  destruct c as [|x r]; [simpl in Hlen; lia|].
  exists x. split; [now left | apply FloatFacts.ltb_nan_r].
Qed.

Lemma nan_threshold_marks_every_column_witness :
  exists b,
    at_col (cloud_base_top (single_column levs_down clw_scenario1) Float.nan) 0
    = Some (0, b, true).
Proof.
  apply (nan_threshold_marks_every_column
           (single_column levs_down clw_scenario1) 0 clw_scenario1).
  - repeat constructor.
  - unfold nlev. simpl. lia.
  - reflexivity.
Defined.

(** ** Further properties of [var_below_cloud_top] *)

(** X12.  For a cloudy column, a negative [idx_bct] is clipped to 0:
    [var_below_cloud_top] returns [var]'s value at level 0 and does not
    raise. *)
Theorem negative_index_selects_level_0 (clt : list bool) (idx : list Z)
  (var : DataArray Float.float) (k : nat) (i : Z) (c : list Float.float) :
  well_formed var -> (0 < nlev var)%nat ->
  length clt = length idx -> length idx = length (columns var) ->
  nth_error clt k = Some true -> nth_error idx k = Some i -> i < 0 ->
  nth_error (columns var) k = Some c ->
  sampled_at (var_below_cloud_top clt idx var) k = nth_error c 0 /\
  nth_error c 0 <> None.
Proof.
  intros Hwf Hn H1 H2 Hm Hi Hneg Hc.
  assert (Hlen : length c = nlev var).
  { apply well_formed_column; [exact Hwf|]. eapply nth_error_In; eassumption. }
  rewrite (sampled_at_column clt idx var k true i c) by assumption.
  unfold Np.clip. destruct (Z.ltb_spec i 0); [|lia].
  destruct c as [|x r]; [simpl in Hlen; lia|].
  split; [reflexivity | discriminate].
Qed.

Lemma negative_index_selects_level_0_witness :
  sampled_at (var_below_cloud_top [true] [-2]
                (single_column levs_down var_scenario5)) 0
  = nth_error var_scenario5 0 /\
  nth_error var_scenario5 0 <> None.
Proof.
  apply (negative_index_selects_level_0 [true] [-2]
           (single_column levs_down var_scenario5) 0 (-2) var_scenario5).
  - repeat constructor.
  - unfold nlev. simpl. lia.
  - reflexivity.
  - reflexivity.
  - reflexivity.
  - reflexivity.
  - lia.
  - reflexivity.
Defined.

Lemma var_below_cloud_top_returns_aux (clt : list bool) (idx : list Z)
  (var : DataArray Float.float) :
  length clt = length idx -> length idx = length (columns var) ->
  (0 < nlev var)%nat ->
  exists out, var_below_cloud_top clt idx var = Ok out.
Proof.
  intros H1 H2 Hn. rewrite var_below_cloud_top_Ok by assumption.
  eexists. reflexivity.
Qed.

(** X13.  Given a mask and an index array with one entry per column of
    [var], [var_below_cloud_top] raises (np.choose has no choice array)
    exactly when [var] has no level; otherwise it returns an array with
    one value per column, whatever the index values are. *)
Theorem var_below_cloud_top_returns (clt : list bool) (idx : list Z)
  (var : DataArray Float.float) :
  length clt = length idx -> length idx = length (columns var) ->
  (var_below_cloud_top clt idx var = Raise ChoicesCount <-> nlev var = 0%nat) /\
  ((0 < nlev var)%nat ->
   exists out, var_below_cloud_top clt idx var = Ok out /\
               length out = length (columns var)).
Proof.
  intros H1 H2. split; [split|].
  - intros H. destruct (Nat.eq_dec (nlev var) 0) as [E | E]; [exact E|].
    rewrite var_below_cloud_top_Ok in H by (try assumption; lia). discriminate.
  - intros E. unfold var_below_cloud_top. rewrite isel_first_31.
    unfold Np.choose_clip, nlev in *. cbn [lev columns].
    rewrite length_firstn, E. reflexivity.
  - intros Hn. rewrite var_below_cloud_top_Ok by assumption.
    eexists. split; [reflexivity|].
    rewrite zip_with_length.
    + congruence.
    + rewrite zip_with_length by (now rewrite length_map). exact H1.
Qed.

Lemma var_below_cloud_top_returns_witness :
  (var_below_cloud_top [true] [7] (single_column levs_down var_scenario5)
   = Raise ChoicesCount <->
   nlev (single_column levs_down var_scenario5) = 0%nat) /\
  ((0 < nlev (single_column levs_down var_scenario5))%nat ->
   exists out,
     var_below_cloud_top [true] [7] (single_column levs_down var_scenario5)
     = Ok out /\
     length out = length (columns (single_column levs_down var_scenario5))).
Proof.
  apply (var_below_cloud_top_returns [true] [7]
           (single_column levs_down var_scenario5)); reflexivity.
Defined.

(** X14.  The two functions in sequence, on a profile of at most 32
    levels and a [var] over the same level axis and columns: both
    return, and the sampled value of a column is NaN where [clt_mask] is
    False and otherwise [var]'s value exactly at [idx_bct]; the
    31-level restriction and the index clipping never change the
    result. *)
Theorem sample_after_detect_reads_idx_bct (clw var : DataArray Float.float)
  (t : Float.float) :
  well_formed clw -> well_formed var ->
  (0 < nlev clw)%nat -> (nlev clw <= 32)%nat -> nlev var = nlev clw ->
  length (columns var) = length (columns clw) ->
  exists idx_acb idx_bct clt_mask out,
    cloud_base_top clw t = Ok (idx_acb, idx_bct, clt_mask) /\
    var_below_cloud_top clt_mask idx_bct var = Ok out /\
    forall k cv b m,
      nth_error (columns var) k = Some cv ->
      nth_error idx_bct k = Some b ->
      nth_error clt_mask k = Some m ->
      (Z.to_nat b < length cv)%nat /\
      nth_error out k
      = Some (if m then nth (Z.to_nat b) cv Float.nan else Float.nan).
Proof.
  intros Hwf Hwfv Hn H32 Hnv Hcols.
  assert (Hne : lev clw <> []) by (apply nonempty_length; exact Hn).
  set (bct := map (col_idx_bct (lev clw) t) (columns clw)).
  set (clt := map (col_clt_mask t) (columns clw)).
  assert (L1 : length clt = length bct) by (unfold clt, bct; now rewrite !length_map).
  assert (L2 : length bct = length (columns var))
    by (unfold bct; now rewrite length_map).
  assert (Hnv0 : (0 < nlev var)%nat) by lia.
  destruct (var_below_cloud_top_returns_aux clt bct var L1 L2 Hnv0) as [out Hout].
  exists (map (col_idx_acb t) (columns clw)), bct, clt, out.
  split; [now apply cloud_base_top_by_column|]. split; [exact Hout|].
  intros k cv b m Hcv Hb Hm.
  pose proof (sampled_at_column clt bct var k m b cv Hnv0 L1 L2 Hm Hb Hcv) as Hs.
  rewrite Hout in Hs. cbn [sampled_at] in Hs.
  unfold bct in Hb. rewrite nth_error_map in Hb.
  destruct (nth_error (columns clw) k) as [c|] eqn:Ec; [|discriminate].
  injection Hb as Hb.
  assert (Hlen : length c = length (lev clw)).
  { apply well_formed_column; [exact Hwf|]. eapply nth_error_In; eassumption. }
  assert (Hlenv : length cv = nlev var).
  { apply well_formed_column; [exact Hwfv|]. eapply nth_error_In; eassumption. }
  pose proof (col_idx_bct_bounds (lev clw) t c Hlen Hne) as Hbd.
  rewrite Hb in Hbd. unfold nlev in *.
  split; [lia|].
  rewrite Hs. destruct m; [|reflexivity].
  rewrite clip_nonneg by lia.
  replace (Z.to_nat (Z.min b (Z.of_nat (Nat.min 31 (length (lev var))) - 1)))
    with (Z.to_nat b) by lia.
  rewrite nth_firstn.
  replace (Z.to_nat b <? 31)%nat with true by (symmetry; apply Nat.ltb_lt; lia).
  reflexivity.
Qed.

Lemma sample_after_detect_reads_idx_bct_witness :
  exists idx_acb idx_bct clt_mask out,
    cloud_base_top (single_column levs_down clw_scenario1) clw_thresh_default
    = Ok (idx_acb, idx_bct, clt_mask) /\
    var_below_cloud_top clt_mask idx_bct (single_column levs_down var_scenario5)
    = Ok out /\
    forall k cv b m,
      nth_error (columns (single_column levs_down var_scenario5)) k = Some cv ->
      nth_error idx_bct k = Some b ->
      nth_error clt_mask k = Some m ->
      (Z.to_nat b < length cv)%nat /\
      nth_error out k
      = Some (if m then nth (Z.to_nat b) cv Float.nan else Float.nan).
Proof.
  apply (sample_after_detect_reads_idx_bct
           (single_column levs_down clw_scenario1)
           (single_column levs_down var_scenario5) clw_thresh_default).
  - repeat constructor.
  - repeat constructor.
  - unfold nlev. simpl. lia.
  - unfold nlev. simpl. lia.
  - reflexivity.
  - reflexivity.
Defined.

(** X15.  On a [var] of at least 31 levels, a cloudy column whose
    [idx_bct] is 30 or more gets [var]'s value at level 30: an index
    pointing at level 31 or deeper is silently replaced by level 30. *)
Theorem deep_index_reads_level_30 (clt : list bool) (idx : list Z)
  (var : DataArray Float.float) (k : nat) (i : Z) (c : list Float.float) :
  well_formed var -> (31 <= nlev var)%nat ->
  length clt = length idx -> length idx = length (columns var) ->
  nth_error clt k = Some true -> nth_error idx k = Some i -> 30 <= i ->
  nth_error (columns var) k = Some c ->
  sampled_at (var_below_cloud_top clt idx var) k = nth_error c 30 /\
  nth_error c 30 <> None.
Proof.
  intros Hwf Hn H1 H2 Hm Hi Hi30 Hc.
  assert (Hlen : length c = nlev var).
  { apply well_formed_column; [exact Hwf|]. eapply nth_error_In; eassumption. }
  rewrite (sampled_at_column clt idx var k true i c) by (try assumption; lia).
  rewrite clip_nonneg by lia.
  replace (Z.to_nat (Z.min i (Z.of_nat (Nat.min 31 (nlev var)) - 1)))
    with 30%nat by lia.
  rewrite nth_firstn.
  change (30 <? 31)%nat with true. cbn iota.
  assert (H30 : (30 < length c)%nat) by lia.
  rewrite (nth_error_nth' c Float.nan H30).
  split; [reflexivity | discriminate].
Qed.

Lemma deep_index_reads_level_30_witness :
  sampled_at (var_below_cloud_top [true] [32]
                (mkDataArray (repeat Float.f0 33) [repeat Float.f10 33])) 0
  = nth_error (repeat Float.f10 33) 30 /\
  nth_error (repeat Float.f10 33) 30 <> None.
Proof.
  apply (deep_index_reads_level_30 [true] [32]
           (mkDataArray (repeat Float.f0 33) [repeat Float.f10 33]) 0 32
           (repeat Float.f10 33)).
  - repeat constructor.
  - unfold nlev. simpl. lia.
  - reflexivity.
  - reflexivity.
  - reflexivity.
  - reflexivity.
  - lia.
  - reflexivity.
Defined.
